(** * AIMS: paginated retrieval of an ArcGIS REST map-service layer

    A shallow embedding of [src/aims/aims.py] (class [AIMS]) and the
    properties of its URL validation, page plan, page requests, fetch and
    merge.  Python values are modelled as follows:

    - [int] is [Z]; [str] is [string]; a [dict] with string keys that is only
      read by key is a [gmap string _]; a parsed JSON document is [json];
    - a raised exception is the [Raise] branch of [result];
    - [requests.get] is a fixed function [transport] from the request to its
      outcome, and every call is appended to a log of requests;
    - the thread pool runs the submitted tasks in the order given by a
      schedule; a future that has not run when its result is asked for is run
      at that point;
    - a GeoDataFrame is recorded by the features and the crs it was built
      from; whether [GeoDataFrame.from_features] raises on them is given by
      [frame_error]. *)

From stdpp Require Import gmap strings list pretty.
From Stdlib Require Import ZArith Lia Ascii.

Local Open Scope string_scope.
Local Open Scope Z_scope.

(** ** Exceptions and results *)

Inductive exn : Type :=
| ValueError (msg : string)
| IndexError (msg : string)
| KeyError (key : string)
| TypeError (msg : string)
| LibraryError (what : string).
(* [LibraryError]: an exception raised inside [requests.get],
   [Response.json] or [urlparse]; the code never catches or wraps it. *)

Inductive result (A : Type) : Type :=
| Ok (a : A)
| Raise (e : exn).
Arguments Ok {A} a.
Arguments Raise {A} e.

#[global] Instance result_ret : MRet result := λ A a, Ok a.
#[global] Instance result_bind : MBind result :=
  λ A B f m, match m with Ok a => f a | Raise e => Raise e end.

Definition is_ok {A} (r : result A) : bool :=
  match r with Ok _ => true | Raise _ => false end.

(** ** Builtins: [range], indexing, slicing, [str.split], [str.join], [int] *)

(* Number of elements of range(start, stop, step), step <> 0. *)
Definition range_len (start stop step : Z) : Z :=
  if 0 <? step then
    (if start <? stop then (stop - start - 1) `div` step + 1 else 0)
  else
    (if stop <? start then (start - stop - 1) `div` (- step) + 1 else 0).

Definition range (start stop step : Z) : result (list Z) :=
  if step =? 0 then Raise (ValueError "range() arg 3 must not be zero")
  else Ok (map (λ k : nat, start + Z.of_nat k * step)
               (seq 0 (Z.to_nat (range_len start stop step)))).

(* l[i], negative i counting from the end. *)
Definition py_index {A} (l : list A) (i : Z) : result A :=
  let n := Z.of_nat (length l) in
  let j := if i <? 0 then n + i else i in
  if (j <? 0) || (n <=? j) then Raise (IndexError "list index out of range")
  else match l !! Z.to_nat j with
       | Some x => Ok x
       | None => Raise (IndexError "list index out of range")
       end.

(* l[:j], negative j counting from the end. *)
Definition py_slice_to {A} (l : list A) (j : Z) : list A :=
  let n := Z.of_nat (length l) in
  let k := if j <? 0 then Z.max 0 (n + j) else Z.min j n in
  take (Z.to_nat k) l.

Definition slash : ascii := "/"%char.

(* s.split("/") *)
Fixpoint split_slash (s : string) : list string :=
  match s with
  | EmptyString => [EmptyString]
  | String c r =>
      if Ascii.eqb c slash then EmptyString :: split_slash r
      else match split_slash r with
           | h :: t => String c h :: t
           | [] => [String c EmptyString]
           end
  end.

(* "/".join(l) *)
Fixpoint join_slash (l : list string) : string :=
  match l with
  | [] => ""
  | [x] => x
  | x :: r => x +:+ "/" +:+ join_slash r
  end.

(* The blanks that int() skips around an ASCII literal: \t \n \v \f \r and
   the space. *)
Definition is_space (c : ascii) : bool :=
  let n := nat_of_ascii c in
  ((9 <=? n) && (n <=? 13) || (n =? 32))%nat.

Definition digit_of (c : ascii) : option Z :=
  let n := nat_of_ascii c in
  if ((48 <=? n) && (n <=? 57))%nat then Some (Z.of_nat n - 48) else None.

(* Decimal digits with single underscores between digits. *)
Fixpoint digits_value (acc : Z) (after_digit : bool) (s : list ascii) : option Z :=
  match s with
  | [] => if after_digit then Some acc else None
  | c :: r =>
      match digit_of c with
      | Some d => digits_value (10 * acc + d) true r
      | None =>
          if Ascii.eqb c "_"%char && after_digit then digits_value acc false r
          else None
      end
  end.

Definition strip_spaces (s : list ascii) : list ascii :=
  let drop_lead := fix go (l : list ascii) : list ascii :=
    match l with
    | c :: r => if is_space c then go r else l
    | [] => []
    end in
  rev (drop_lead (rev (drop_lead s))).

(* int(s) for a str s of ASCII characters: [None] stands for ValueError. *)
Definition py_int (s : string) : option Z :=
  match strip_spaces (String.list_ascii_of_string s) with
  | c :: r =>
      if Ascii.eqb c "-"%char then Z.opp <$> digits_value 0 false r
      else if Ascii.eqb c "+"%char then digits_value 0 false r
      else digits_value 0 false (c :: r)
  | [] => None
  end.

(** ** JSON documents *)

#[warnings="-register-all"]
Inductive json : Type :=
| JNull
| JBool (b : bool)
| JNum (z : Z)
| JStr (s : string)
| JArr (items : list json)
| JObj (members : list (string * json)).

Fixpoint assoc_get (k : string) (kvs : list (string * json)) : option json :=
  match kvs with
  | [] => None
  | (k', v) :: r => if String.eqb k k' then Some v else assoc_get k r
  end.

Fixpoint assoc_set (k : string) (v : json) (kvs : list (string * json))
  : list (string * json) :=
  match kvs with
  | [] => [(k, v)]
  | (k', v') :: r =>
      if String.eqb k k' then (k, v) :: r else (k', v') :: assoc_set k v r
  end.

(* d[k] *)
Definition getitem (d : json) (k : string) : result json :=
  match d with
  | JObj kvs =>
      match assoc_get k kvs with
      | Some v => Ok v
      | None => Raise (KeyError k)
      end
  | JArr _ => Raise (TypeError "list indices must be integers or slices, not str")
  | JStr _ => Raise (TypeError "string indices must be integers, not 'str'")
  | _ => Raise (TypeError "object is not subscriptable")
  end.

(* int(v) *)
Definition int_of_json (v : json) : result Z :=
  match v with
  | JNum z => Ok z
  | JBool b => Ok (if b then 1 else 0)
  | JStr s =>
      match py_int s with
      | Some z => Ok z
      | None => Raise (ValueError "invalid literal for int() with base 10")
      end
  | _ => Raise (TypeError "int() argument must be a string, a bytes-like object or a real number")
  end.

Definition chars (s : string) : list json :=
  map (λ c, JStr (String c EmptyString)) (String.list_ascii_of_string s).

(* The value of [a] after [a += b]. *)
Definition iadd (a b : json) : result json :=
  match a, b with
  | JArr l, JArr l' => Ok (JArr (l ++ l')%list)
  | JArr l, JStr s => Ok (JArr (l ++ chars s)%list)
  | JArr l, JObj kvs => Ok (JArr (l ++ map (λ kv, JStr kv.1) kvs)%list)
  | JArr _, _ => Raise (TypeError "object is not iterable")
  | JStr s, JStr s' => Ok (JStr (s +:+ s'))
  | JNum x, JNum y => Ok (JNum (x + y))
  | JNum x, JBool y => Ok (JNum (x + (if y then 1 else 0)))
  | JBool x, JNum y => Ok (JNum ((if x then 1 else 0) + y))
  | JBool x, JBool y => Ok (JNum ((if x then 1 else 0) + (if y then 1 else 0)))
  | _, _ => Raise (TypeError "unsupported operand type(s) for +=")
  end.

Definition is_array (v : json) : bool :=
  match v with JArr _ => true | _ => false end.

(** ** Requests, responses and the request log *)

(* A value passed as a keyword argument or as a request parameter. *)
Inductive pyval : Type :=
| PStr (s : string)
| PInt (z : Z).

#[global] Instance pyval_eq_dec : EqDecision pyval.
Proof. solve_decision. Defined.

Record Request : Type := {
  req_url : string;
  req_params : gmap string pyval
}.

(* What the code reads of a [requests.Response]: the outcome of [.json()]. *)
Record Response : Type := { resp_json : result json }.

(* The named tuple returned by [urllib.parse.urlparse]. *)
Record ParseResult : Type := {
  scheme : string;
  netloc : string;
  path : string;
  params : string;
  query : string;
  fragment : string
}.

(* A computation that may raise and that appends to the log of requests. *)
Definition M (A : Type) : Type := list Request → result A * list Request.

#[global] Instance M_ret : MRet M := λ A a log, (Ok a, log).
#[global] Instance M_bind : MBind M :=
  λ A B f m log,
    match m log with
    | (Ok a, log') => f a log'
    | (Raise e, log') => (Raise e, log')
    end.

Definition lift {A} (r : result A) : M A := λ log, (r, log).

(** ** The class [AIMS] *)

(* The attributes set by lines 47-59 of [__init__]. *)
Record Session : Type := {
  url : string;
  query_url : string;
  _query_where : pyval;
  _query_text : pyval;
  _query_objectIds : pyval;
  _query_geometry : pyval;
  _query_geometryType : pyval;
  _query_inSR : pyval;
  _query_spatialRel : pyval;
  _query_outFields : pyval;
  _query_outSR : pyval
}.

(* A frame built by [GeoDataFrame.from_features]: the arguments of the call. *)
Record GeoDataFrame : Type := {
  gdf_features : json;
  gdf_crs : pyval
}.

Record AIMS : Type := {
  self : Session;
  n_records : Z;
  max_record_count : Z;
  schema : json;
  pagination_supported : json;
  geometry_type : json;
  _request_urls : list (Z * Z);
  _raw_responses : list Response;
  data : json;
  gdf : GeoDataFrame
}.

Definition format_error : exn :=
  ValueError "Unable to validate URL. Should be URL of format: https://<ARCGIS_SERVER>/arcgis/rest/services/<FOLDER(S)>/MapServer/<LAYER_NUMBER>".

(* The [for] loop of [_validate_url] over the indices [idx]; an exception
   inside the [try] moves on to the next index. *)
Fixpoint find_layer (parsed : ParseResult) (split_path : list string)
    (idx : list Z) : result string :=
  match idx with
  | [] => Raise format_error
  | i :: rest =>
      match py_index split_path i with
      | Ok seg =>
          match py_int seg with
          | Some _ =>
              if i + 1 =? 0 then
                Ok (scheme parsed +:+ "://" +:+
                    (netloc parsed +:+ join_slash split_path))
              else
                Ok (scheme parsed +:+ "://" +:+
                    (netloc parsed +:+ join_slash (py_slice_to split_path (i + 1))))
          | None => find_layer parsed split_path rest
          end
      | Raise _ => find_layer parsed split_path rest
      end
  end.

(* Lines 124-139, on the parsed URL. *)
Definition validate_parsed (parsed : ParseResult) : result string :=
  let split_path := split_slash (path parsed) in
  idx ← range (-1) (-1 * Z.of_nat (length split_path)) (-1);
  find_layer parsed split_path idx.

(* Lines 71-74. *)
Definition request_urls (n_records max_record_count : Z) : result (list (Z * Z)) :=
  r ← range 0 n_records max_record_count;
  mret (map (λ i, (i, max_record_count)) r).

(* Lines 93-94: [features += self._raw_responses[resp].json()["features"]]. *)
Fixpoint extend_features (raw : list Response) (idx : list Z) (features : json)
  : result json :=
  match idx with
  | [] => Ok features
  | i :: rest =>
      r ← py_index raw i;
      page ← resp_json r;
      more ← getitem page "features";
      features' ← iadd features more;
      extend_features raw rest features'
  end.

(* Lines 90-96.  [features] is the object stored in [initial_json]: when it
   is a list, [+=] extends it in place and the dict shows the extended list;
   otherwise [+=] rebinds the local name only. *)
Definition combine (raw : list Response) : result json :=
  r0 ← py_index raw 0;
  initial_json ← resp_json r0;
  features ← getitem initial_json "features";
  idx ← range 1 (Z.of_nat (length raw)) 1;
  features' ← extend_features raw idx features;
  mret match initial_json, features with
       | JObj kvs, JArr _ => JObj (assoc_set "features" features' kvs)
       | _, _ => initial_json
       end.

(* list(map(f, xs)) *)
Fixpoint py_map {X B} (f : X → M B) (xs : list X) : M (list B) :=
  match xs with
  | [] => mret []
  | x :: rest => b ← f x; bs ← py_map f rest; mret (b :: bs)
  end.

(* The worker threads: the tasks named by [sched] are run in that order, each
   at most once, and their outcomes are stored in the futures. *)
Fixpoint run_pool {X B} (f : X → M B) (xs : list X) (sched : list nat)
    (futures : list (option (result B))) (log : list Request)
  : list (option (result B)) * list Request :=
  match sched with
  | [] => (futures, log)
  | i :: rest =>
      match xs !! i, futures !! i with
      | Some x, Some None =>
          let '(r, log') := f x log in
          run_pool f xs rest (<[i := Some r]> futures) log'
      | _, _ => run_pool f xs rest futures log
      end
  end.

(* The iterator of [Executor.map] consumed by [list]: the results of the
   futures in submission order.  A future that has not run yet is waited for;
   the first exception is raised and the futures not yet run are cancelled. *)
Fixpoint gather {X B} (f : X → M B) (xs : list X)
    (futures : list (option (result B))) : M (list B) :=
  match xs, futures with
  | x :: xs', fut :: futures' =>
      b ← match fut with
          | Some r => lift r
          | None => f x
          end;
      bs ← gather f xs' futures';
      mret (b :: bs)
  | _, _ => mret []
  end.

(* list(executor.map(f, xs)) inside [with ThreadPoolExecutor()]. *)
Definition executor_map {X B} (f : X → M B) (xs : list X) (sched : list nat)
  : M (list B) :=
  λ log,
    let '(futures, log') := run_pool f xs sched (replicate (length xs) None) log in
    gather f xs futures log'.

Section World.

(* [requests.get] and [urllib.parse.urlparse]. *)
Variable transport : Request → result Response.
Variable urlparse : string → result ParseResult.

(* The exception that [GeoDataFrame.from_features(features, crs=crs)] raises,
   if it raises. *)
Variable frame_error : json → pyval → option exn.

Definition from_features (features : json) (crs : pyval) : result GeoDataFrame :=
  match frame_error features crs with
  | Some e => Raise e
  | None => Ok {| gdf_features := features; gdf_crs := crs |}
  end.

(* Lines 99-105. *)
Definition to_gdf (features : json) (outSR : pyval) : result GeoDataFrame :=
  if decide (outSR ≠ PStr "") then from_features features outSR
  else from_features features (PInt 4236).

Definition get (u : string) (ps : gmap string pyval) : M Response :=
  λ log,
    let req := {| req_url := u; req_params := ps |} in
    (transport req, (log ++ [req])%list).

Definition _validate_url (u : string) : result string :=
  parsed ← urlparse u;
  validate_parsed parsed.

Definition _get_metadata (s : Session) : M (Z * Z * json * json * json) :=
  metadata_response ← get (url s) {[ "f" := PStr "json" ]};
  metadata ← lift (resp_json metadata_response);
  mrc ← lift (getitem metadata "maxRecordCount");
  max_record_count ← lift (int_of_json mrc);
  aqc ← lift (getitem metadata "advancedQueryCapabilities");
  supports_pagination ← lift (getitem aqc "supportsPagination");
  schema ← lift (getitem metadata "fields");
  geometry_type ← lift (getitem metadata "geometryType");
  total_record_response ←
    get (query_url s)
        (<[ "returnCountOnly" := PStr "true" ]>
           (<[ "where" := PStr "1=1" ]> {[ "f" := PStr "json" ]}));
  count_json ← lift (resp_json total_record_response);
  cnt ← lift (getitem count_json "count");
  total_record_count ← lift (int_of_json cnt);
  mret (total_record_count, max_record_count, schema, supports_pagination,
        geometry_type).

Definition request_params (s : Session) (pagination_params : Z * Z)
  : gmap string pyval :=
  <[ "where" := _query_where s ]>
  (<[ "text" := _query_text s ]>
  (<[ "geometry" := _query_geometry s ]>
  (<[ "geometryType" := _query_geometryType s ]>
  (<[ "inSR" := _query_inSR s ]>
  (<[ "spatialRel" := _query_spatialRel s ]>
  (<[ "outFields" := _query_outFields s ]>
  (<[ "outSR" := _query_outSR s ]>
  (<[ "resultOffset" := PInt pagination_params.1 ]>
  (<[ "resultRecordCount" := PInt pagination_params.2 ]>
  {[ "f" := PStr "geojson" ]}))))))))).

Definition _make_single_request (s : Session) (pagination_params : Z * Z)
  : M Response :=
  get (query_url s) (request_params s pagination_params).

(* Lines 77-87.  [sched] is the order in which the pool's workers run the
   tasks; the sequential branch does not use it. *)
Definition fetch_pages (s : Session) (concurrent : bool) (plan : list (Z * Z))
    (sched : list nat) : M (list Response) :=
  if concurrent then executor_map (_make_single_request s) plan sched
  else py_map (_make_single_request s) plan.

(* Lines 77-96: the responses and the merged collection [self.data]. *)
Definition fetch_all (s : Session) (concurrent : bool) (plan : list (Z * Z))
    (sched : list nat) : M (list Response * json) :=
  raw ← fetch_pages s concurrent plan sched;
  d ← lift (combine raw);
  mret (raw, d).

(* Lines 47-59. *)
Definition new_session (u : string) (kwargs : gmap string pyval) : result Session :=
  valid ← _validate_url u;
  mret {|
    url := valid;
    query_url := valid +:+ "/Query";
    _query_where := default (PStr "1=1") (kwargs !! "where");
    _query_text := default (PStr "") (kwargs !! "text");
    _query_objectIds := default (PStr "") (kwargs !! "objectIds");
    _query_geometry := default (PStr "") (kwargs !! "geometry");
    _query_geometryType := default (PStr "") (kwargs !! "geometryType");
    _query_inSR := default (PStr "") (kwargs !! "inSR");
    _query_spatialRel := default (PStr "") (kwargs !! "spatialRel");
    _query_outFields := default (PStr "*") (kwargs !! "outFields");
    _query_outSR := default (PStr "") (kwargs !! "outSR")
  |}.

Definition __init__ (u : string) (concurrent : bool)
    (kwargs : gmap string pyval) (sched : list nat) : M AIMS :=
  s ← lift (new_session u kwargs);
  '(n, m, sch, pag, geo) ← _get_metadata s;
  plan ← lift (request_urls n m);
  '(raw, d) ← fetch_all s concurrent plan sched;
  feats ← lift (getitem d "features");
  frame ← lift (to_gdf feats (_query_outSR s));
  mret {|
    self := s;
    n_records := n;
    max_record_count := m;
    schema := sch;
    pagination_supported := pag;
    geometry_type := geo;
    _request_urls := plan;
    _raw_responses := raw;
    data := d;
    gdf := frame
  |}.

End World.

(** ** Notions used in the statements *)

(* A string without "/". *)
Fixpoint no_slash (s : string) : Prop :=
  match s with
  | EmptyString => True
  | String c r => c ≠ slash ∧ no_slash r
  end.

(* scheme + "://" + netloc + the path elements 0..k joined by "/". *)
Definition base_url (parsed : ParseResult) (segs : list string) (k : nat) : string :=
  scheme parsed +:+ "://" +:+ netloc parsed +:+ join_slash (take (S k) segs).

(* The outcome of a list of finished tasks read in order: all the values, or
   the first exception. *)
Fixpoint all_ok {B} (rs : list (result B)) : result (list B) :=
  match rs with
  | [] => Ok []
  | r :: rest => b ← r; bs ← all_ok rest; mret (b :: bs)
  end.

(* Every future that has run holds the outcome [g x] of its own task. *)
Definition agree {X B} (g : X → result B) (xs : list X)
    (futures : list (option (result B))) : Prop :=
  Forall2 (λ x fut, fut = None ∨ fut = Some (g x)) xs futures.

(* The request built by [_make_single_request]. *)
Definition page_request (s : Session) (p : Z * Z) : Request :=
  {| req_url := query_url s; req_params := request_params s p |}.

(* The feature array of a page answer, when it has one. *)
Definition page_features (r : Response) : option (list json) :=
  match resp_json r with
  | Ok (JObj kvs) =>
      match assoc_get "features" kvs with
      | Some (JArr l) => Some l
      | _ => None
      end
  | _ => None
  end.



(* The two requests of [_get_metadata]. *)
Definition metadata_request (s : Session) : Request :=
  {| req_url := url s; req_params := {[ "f" := PStr "json" ]} |}.

Definition count_request (s : Session) : Request :=
  {| req_url := query_url s;
     req_params := <[ "returnCountOnly" := PStr "true" ]>
                     (<[ "where" := PStr "1=1" ]> {[ "f" := PStr "json" ]}) |}.

(* The tasks whose future has not run. *)
Fixpoint pending {X B} (xs : list X) (futures : list (option (result B))) : list X :=
  match xs, futures with
  | x :: xs', fut :: futures' =>
      match fut with
      | None => x :: pending xs' futures'
      | Some _ => pending xs' futures'
      end
  | _, _ => []
  end.

(** ** The command line ([src/aims/cli.py]) and the export methods *)

(* str.lower(), on ASCII letters. *)
Definition lower_char (c : ascii) : ascii :=
  let n := nat_of_ascii c in
  if ((65 <=? n) && (n <=? 90))%nat then ascii_of_nat (n + 32) else c.

Fixpoint lower (s : string) : string :=
  match s with
  | EmptyString => EmptyString
  | String c r => String (lower_char c) (lower r)
  end.

Fixpoint drop_chars (n : nat) (s : string) : string :=
  match n, s with
  | O, _ => s
  | S n', String _ r => drop_chars n' r
  | S _, EmptyString => EmptyString
  end.

(* s.endswith(suffix) *)
Definition endswith (s suffix : string) : bool :=
  (String.length suffix <=? String.length s)%nat
  && String.eqb (drop_chars (String.length s - String.length suffix) s) suffix.

(* What the command line does besides the requests of the constructor: calls
   of [GeoDataFrame.to_file], the writing of a text file and [click.echo]. *)
Inductive event : Type :=
| Echo (msg : string)
| ToFile (frame : GeoDataFrame) (filename : string) (driver : option string)
| WriteText (filename content : string).

Definition IO (A : Type) : Type := list event → result A * list event.

#[global] Instance IO_ret : MRet IO := λ A a tr, (Ok a, tr).
#[global] Instance IO_bind : MBind IO :=
  λ A B f m tr,
    match m tr with
    | (Ok a, tr') => f a tr'
    | (Raise e, tr') => (Raise e, tr')
    end.

Definition echo (msg : string) : IO unit :=
  λ tr, (Ok tt, (tr ++ [Echo msg])%list).

Section Cli.

(* [GeoDataFrame.to_file], [open(path, "w")] followed by [file.write], and
   [json.dumps]. *)
Variable to_file : GeoDataFrame → string → option string → result unit.
Variable write_text : string → string → result unit.
Variable dumps : json → string.

Definition call_to_file (frame : GeoDataFrame) (filename : string)
    (driver : option string) : IO unit :=
  λ tr, (to_file frame filename driver, (tr ++ [ToFile frame filename driver])%list).

Definition to_shapefile (self : AIMS) (output_file : string) : IO unit :=
  call_to_file (gdf self) output_file None.

Definition to_geojson (self : AIMS) (output_file : string) : IO unit :=
  call_to_file (gdf self) output_file (Some "GeoJSON").

Definition write_file (filename content : string) : IO unit :=
  λ tr, (write_text filename content, (tr ++ [WriteText filename content])%list).

(* [instance.schema], named apart from the [schema] option of [cli]. *)
Definition schema_of (instance : AIMS) : json := schema instance.

(* Lines 48-92 of [cli]: the exports of a constructed instance.  An option
   that is [None] or the empty string is skipped. *)
Definition cli_export (instance : AIMS) (geojson shapefile schema : option string)
  : IO unit :=
  let instance_schema := schema_of instance in
  _ ← match geojson with
      | Some geojson =>
          if String.eqb geojson "" then mret tt
          else
            let out_gjs :=
              if endswith (lower geojson) ".geojson" then geojson
              else geojson +:+ ".geojson" in
            _ ← to_geojson instance out_gjs;
            echo ("GeoJSON saved at " +:+ out_gjs)
      | None => mret tt
      end;
  _ ← match shapefile with
      | Some shapefile =>
          if String.eqb shapefile "" then mret tt
          else
            let out_shp :=
              if endswith (lower shapefile) ".shp" then shapefile
              else shapefile +:+ ".shp" in
            _ ← to_shapefile instance out_shp;
            echo ("Shapefile saved at " +:+ out_shp)
      | None => mret tt
      end;
  _ ← match schema with
      | Some schema =>
          if String.eqb schema "" then mret tt
          else
            let out_schema :=
              if endswith (lower schema) ".json" then schema
              else schema +:+ ".json" in
            _ ← write_file out_schema (dumps instance_schema);
            echo ("Schema saved at " +:+ schema)
      | None => mret tt
      end;
  _ ← echo "Processing complete.";
  echo ("Retreived " +:+ pretty (n_records instance) +:+ " records.").

(* The keyword arguments that [cli] passes to the constructor (line 46). *)
Definition cli_kwargs (where_ out_fields out_sr : string) : gmap string pyval :=
  <[ "where" := PStr where_ ]>
  (<[ "outFields" := PStr out_fields ]> {[ "outSR" := PStr out_sr ]}).

Variable transport : Request → result Response.
Variable urlparse : string → result ParseResult.
Variable frame_error : json → pyval → option exn.

Definition cli (u : string) (concurrent : bool) (where_ out_fields out_sr : string)
    (geojson shapefile schema : option string) (sched : list nat)
    (log : list Request) : result unit * list Request * list event :=
  match __init__ transport urlparse frame_error u concurrent
          (cli_kwargs where_ out_fields out_sr) sched log with
  | (Ok instance, log') =>
      let '(r, tr) := cli_export instance geojson shapefile schema [] in
      (r, log', tr)
  | (Raise e, log') => (Raise e, log', [])
  end.

End Cli.

(** ** Mocked services and sample URLs *)

Definition feature (id : Z) : json :=
  JObj [("type", JStr "Feature");
        ("id", JNum id);
        ("geometry", JObj [("type", JStr "Point");
                           ("coordinates", JArr [JNum id; JNum 0])]);
        ("properties", JObj [("OBJECTID", JNum id)])].

Definition ok_page (fs : list json) : Response :=
  {| resp_json := Ok (JObj [("type", JStr "FeatureCollection"); ("features", JArr fs)]) |}.


Definition metadata_page (max_rc : Z) : Response :=
  {| resp_json :=
       Ok (JObj [("maxRecordCount", JNum max_rc);
                 ("advancedQueryCapabilities", JObj [("supportsPagination", JBool true)]);
                 ("fields", JArr []);
                 ("geometryType", JStr "esriGeometryPoint")]) |}.

Definition count_page (count : Z) : Response :=
  {| resp_json := Ok (JObj [("count", JNum count)]) |}.

(* A service with [count] records and pages of [max_rc] records, whose page
   at offset [o] is [page o]. *)
Definition mock_service (count max_rc : Z) (page : Z → result Response)
    (r : Request) : result Response :=
  match req_params r !! "resultOffset" with
  | Some (PInt o) => page o
  | Some (PStr _) => Raise (LibraryError "ConnectionError")
  | None =>
      match req_params r !! "returnCountOnly" with
      | Some _ => Ok (count_page count)
      | None => Ok (metadata_page max_rc)
      end
  end.

Definition two_features (o : Z) : list json := [feature o; feature (o + 1)].

Definition mock_good : Request → result Response :=
  mock_service 250 100 (λ o, Ok (ok_page (two_features o))).


(* The request of the page at offset [bad] raises. *)
Definition mock_down_at (bad : Z) : Request → result Response :=
  mock_service 250 100
    (λ o, if o =? bad then Raise (LibraryError "ConnectionError")
          else Ok (ok_page (two_features o))).

(* A stand-in for the failures of [GeoDataFrame.from_features]: the features
   must be a list of objects with a "geometry" and a "properties" member. *)
Definition frame_error_sample (features : json) (crs : pyval) : option exn :=
  match features with
  | JArr items =>
      if forallb (λ item, is_ok (getitem item "geometry")) items then
        if forallb (λ item, is_ok (getitem item "properties")) items then None
        else Some (KeyError "properties")
      else Some (KeyError "geometry")
  | _ => Some (TypeError "features is not a list")
  end.

Definition mock_empty : Request → result Response :=
  mock_service 0 1000 (λ o, Ok (ok_page [])).

Definition sample_url : string := "https://h.org/arcgis/rest/services/F/MapServer/3".

Definition sample_session : Session :=
  {| url := sample_url;
     query_url := sample_url +:+ "/Query";
     _query_where := PStr "1=1";
     _query_text := PStr "";
     _query_objectIds := PStr "";
     _query_geometry := PStr "";
     _query_geometryType := PStr "";
     _query_inSR := PStr "";
     _query_spatialRel := PStr "";
     _query_outFields := PStr "*";
     _query_outSR := PStr "" |}.

Definition sample_metadata (count max_rc : Z) : Z * Z * json * json * json :=
  (count, max_rc, JArr [], JBool true, JStr "esriGeometryPoint").

Definition metadata_requests : list Request :=
  [ {| req_url := sample_url; req_params := {[ "f" := PStr "json" ]} |};
    {| req_url := sample_url +:+ "/Query";
       req_params := <[ "returnCountOnly" := PStr "true" ]>
                       (<[ "where" := PStr "1=1" ]> {[ "f" := PStr "json" ]}) |} ].

Definition parse_of (sch net p : string) : ParseResult :=
  {| scheme := sch; netloc := net; path := p;
     params := ""; query := ""; fragment := "" |}.

(* The values of [urlparse] at the URLs used in the examples below. *)
Definition urlparse_sample (u : string) : result ParseResult :=
  if decide (u = "https://h.org/arcgis/rest/services/F/MapServer/3") then
    Ok (parse_of "https" "h.org" "/arcgis/rest/services/F/MapServer/3")
  else if decide (u = "https://h.org/arcgis/rest/services/F/MapServer/3/query?f=json") then
    Ok {| scheme := "https"; netloc := "h.org";
          path := "/arcgis/rest/services/F/MapServer/3/query";
          params := ""; query := "f=json"; fragment := "" |}
  else if decide (u = "https://h.org/arcgis/rest/services/F/MapServer/-1") then
    Ok (parse_of "https" "h.org" "/arcgis/rest/services/F/MapServer/-1")
  else if decide (u = "https://h.org/arcgis/rest/services/F/MapServer") then
    Ok (parse_of "https" "h.org" "/arcgis/rest/services/F/MapServer")
  else if decide (u = "5/x") then
    Ok (parse_of "" "" "5/x")
  else Raise (LibraryError "not tabulated").

(* An export event of [instance] whose file name carries the extension of
   its format, in any letter case. *)
Definition well_named (instance : AIMS) (schema_text : string) (ev : event) : Prop :=
  match ev with
  | Echo _ => True
  | ToFile frame filename (Some driver) =>
      frame = gdf instance ∧ driver = "GeoJSON"
      ∧ endswith (lower filename) ".geojson" = true
  | ToFile frame filename None =>
      frame = gdf instance ∧ endswith (lower filename) ".shp" = true
  | WriteText filename content =>
      content = schema_text ∧ endswith (lower filename) ".json" = true
  end.

(* [m] only appends events that satisfy [P]. *)
Definition appends_only {A} (P : event → Prop) (m : IO A) : Prop :=
  ∀ tr, ∃ new, (m tr).2 = (tr ++ new)%list ∧ Forall P new.

(* File writers that succeed, a writer of frames that fails, and a stand-in
   for [json.dumps]. *)
Definition to_file_ok (frame : GeoDataFrame) (filename : string)
    (driver : option string) : result unit := Ok tt.

Definition to_file_fails (frame : GeoDataFrame) (filename : string)
    (driver : option string) : result unit := Raise (LibraryError "DriverError").

Definition write_text_ok (filename content : string) : result unit := Ok tt.

Definition dumps_sample (v : json) : string := "[]".

Definition sample_instance : AIMS :=
  {| self := sample_session;
     n_records := 2;
     max_record_count := 100;
     schema := JArr [];
     pagination_supported := JBool true;
     geometry_type := JStr "esriGeometryPoint";
     _request_urls := [(0, 100)];
     _raw_responses := [ok_page (two_features 0)];
     data := JObj [("type", JStr "FeatureCollection");
                   ("features", JArr (two_features 0))];
     gdf := {| gdf_features := JArr (two_features 0); gdf_crs := PInt 4236 |} |}.

(* The object built from [mock_good] by a session [s] without "outSR". *)
Definition good_instance (s : Session) : AIMS :=
  {| self := s;
     n_records := 250;
     max_record_count := 100;
     schema := JArr [];
     pagination_supported := JBool true;
     geometry_type := JStr "esriGeometryPoint";
     _request_urls := [(0, 100); (100, 100); (200, 100)];
     _raw_responses := [ok_page (two_features 0); ok_page (two_features 100);
                        ok_page (two_features 200)];
     data := JObj [("type", JStr "FeatureCollection");
                   ("features",
                    JArr (two_features 0 ++ two_features 100 ++ two_features 200))];
     gdf := {| gdf_features :=
                 JArr (two_features 0 ++ two_features 100 ++ two_features 200);
               gdf_crs := PInt 4236 |} |}.

Definition filtered_session : Session :=
  {| url := sample_url;
     query_url := sample_url +:+ "/Query";
     _query_where := PStr "POP > 1000";
     _query_text := PStr "";
     _query_objectIds := PStr "";
     _query_geometry := PStr "";
     _query_geometryType := PStr "";
     _query_inSR := PStr "";
     _query_spatialRel := PStr "";
     _query_outFields := PStr "*";
     _query_outSR := PStr "" |}.

(** * Properties *)

(** ** The page plan *)

Lemma range_len_up (stop step : Z) :
  0 < stop → 0 < step →
  ∀ k : nat, (k < Z.to_nat (range_len 0 stop step))%nat ↔ Z.of_nat k * step < stop.
Proof.
  intros Hn Hm k. unfold range_len.
  destruct (Z.ltb_spec 0 step) as [_|]; [|lia].
  destruct (Z.ltb_spec 0 stop) as [_|]; [|lia].
  replace (stop - 0 - 1) with (stop - 1) by lia.
  assert (Hq : 0 <= (stop - 1) `div` step) by (apply Z.div_pos; lia).
  pose proof (Z.mul_div_le (stop - 1) step Hm) as Hlo.
  pose proof (Z.mul_succ_div_gt (stop - 1) step Hm) as Hhi.
  split; intros H.
  - assert (Z.of_nat k <= (stop - 1) `div` step) by lia. nia.
  - assert (Z.of_nat k < (stop - 1) `div` step + 1) by nia. lia.
Qed.

Lemma request_urls_eq (n m : Z) :
  m ≠ 0 →
  request_urls n m =
    Ok (map (λ k : nat, (Z.of_nat k * m, m)) (seq 0 (Z.to_nat (range_len 0 n m)))).
Proof.
  intros Hm. unfold request_urls, range.
  destruct (Z.eqb_spec m 0) as [|_]; [done|].
  cbn. f_equal. rewrite map_map. apply map_ext. intros k. f_equal.
Qed.

(** C4: for totalRecords > 0 and maxPageSize > 0 the plan is the list of pairs
    (k * maxPageSize, maxPageSize) for k = 0, 1, 2, ... taken exactly while
    k * maxPageSize < totalRecords; 250 records with pages of 100 give
    [(0,100); (100,100); (200,100)]. *)
Theorem request_urls_plan (n m : Z) :
  0 < n → 0 < m →
  (∃ K : nat,
      request_urls n m = Ok (map (λ k : nat, (Z.of_nat k * m, m)) (seq 0 K))
      ∧ ∀ k : nat, (k < K)%nat ↔ Z.of_nat k * m < n)
  ∧ request_urls 250 100 = Ok [(0, 100); (100, 100); (200, 100)].
Proof.
  intros Hn Hm. split; [|reflexivity].
  exists (Z.to_nat (range_len 0 n m)). split.
  - apply request_urls_eq. lia.
  - apply range_len_up; lia.
Qed.

Lemma request_urls_plan_witness :
  (∃ K : nat,
      request_urls 1200 500 = Ok (map (λ k : nat, (Z.of_nat k * 500, 500)) (seq 0 K))
      ∧ ∀ k : nat, (k < K)%nat ↔ Z.of_nat k * 500 < 1200)
  ∧ request_urls 250 100 = Ok [(0, 100); (100, 100); (200, 100)].
Proof. apply (request_urls_plan 1200 500); lia. Defined.

(** ** Strings: [split] and [join] *)

Lemma append_cons (c : ascii) (a b : string) :
  String c a +:+ b = String c (a +:+ b).
Proof. reflexivity. Qed.

Lemma append_assoc (a b c : string) : (a +:+ b) +:+ c = a +:+ (b +:+ c).
Proof. induction a as [|x a IH]; [done|]. by rewrite !append_cons, IH. Qed.

Lemma split_slash_nonempty (s : string) : split_slash s ≠ [].
Proof.
  destruct s as [|c r]; cbn; [done|].
  destruct (Ascii.eqb c slash); [done|]. by destruct (split_slash r).
Qed.


Lemma split_slash_no_slash (s seg : string) :
  seg ∈ split_slash s → no_slash seg.
Proof.
  revert seg. induction s as [|c r IH]; intros seg; cbn [split_slash].
  - intros ->%list_elem_of_singleton. done.
  - destruct (Ascii.eqb_spec c slash) as [->|Hc].
    + intros [->|Hin]%elem_of_cons; [done|]. by apply IH.
    + destruct (split_slash r) as [|h t] eqn:E; [by apply split_slash_nonempty in E|].
      intros [->|Hin]%elem_of_cons.
      * split; [done|]. apply IH. by left.
      * apply IH. by right.
Qed.

Lemma split_slash_single (s : string) : no_slash s → split_slash s = [s].
Proof.
  induction s as [|c r IH]; [done|]. intros [Hc Hr]. cbn [split_slash].
  destruct (Ascii.eqb_spec c slash) as [->|_]; [done|]. by rewrite IH.
Qed.

Lemma split_slash_app (a b : string) :
  split_slash (a +:+ String slash b) = (split_slash a ++ split_slash b)%list.
Proof.
  induction a as [|c r IH]; [done|]. rewrite append_cons. cbn [split_slash].
  rewrite IH. destruct (Ascii.eqb c slash); [done|].
  destruct (split_slash r) as [|h t] eqn:E; [by apply split_slash_nonempty in E|done].
Qed.

Lemma join_slash_snoc (l : list string) (x : string) :
  l ≠ [] → join_slash (l ++ [x]) = join_slash l +:+ String slash x.
Proof.
  induction l as [|y l IH]; [done|]. intros _.
  destruct l as [|y' l]; [done|].
  change (join_slash ((y :: y' :: l) ++ [x]))
    with (y +:+ "/" +:+ join_slash ((y' :: l) ++ [x])).
  rewrite IH by done. cbn [join_slash]. by rewrite !append_assoc.
Qed.

(* The last "/"-separated element of [pre ++ "/".join(segs[:k+1])], k >= 1. *)
Lemma last_split_join_take (pre : string) (segs : list string) (k : nat) (seg : string) :
  (1 ≤ k)%nat → segs !! k = Some seg → no_slash seg →
  last (split_slash (pre +:+ join_slash (take (S k) segs))) = Some seg.
Proof.
  intros Hk Hseg Hns.
  rewrite (take_S_r _ _ _ Hseg), join_slash_snoc.
  - rewrite <- append_assoc, split_slash_app, (split_slash_single seg Hns).
    by rewrite last_snoc.
  - apply lookup_lt_Some in Hseg. destruct segs; [cbn in Hseg; lia|].
    destruct k; [lia|done].
Qed.

(** ** URL validation *)

Lemma validate_indices (len : nat) :
  range (-1) (-1 * Z.of_nat len) (-1) =
    Ok (map (λ t : nat, -1 - Z.of_nat t) (seq 0 (len - 1))).
Proof.
  assert (Hlen : Z.to_nat (range_len (-1) (-1 * Z.of_nat len) (-1)) = (len - 1)%nat).
  { unfold range_len. cbn [Z.ltb Z.compare].
    destruct (Z.ltb_spec (-1 * Z.of_nat len) (-1)); [|lia].
    change (- (-1)) with 1. rewrite Z.div_1_r. lia. }
  unfold range. cbn [Z.eqb]. rewrite Hlen. f_equal.
  apply map_ext. intros t. lia.
Qed.

Lemma py_index_elem {A} (l : list A) (i : Z) (x : A) :
  py_index l i = Ok x → x ∈ l.
Proof.
  unfold py_index. cbv zeta. destruct (_ || _); [done|].
  destruct (l !! _) eqn:E; [|done].
  intros [= <-]. by eapply list_elem_of_lookup_2.
Qed.

Lemma py_index_back {A} (l : list A) (t : nat) (x : A) :
  l !! (length l - 1 - t)%nat = Some x → (t < length l)%nat →
  py_index l (-1 - Z.of_nat t) = Ok x.
Proof.
  intros Hx Ht. unfold py_index.
  destruct (Z.ltb_spec (-1 - Z.of_nat t) 0); [|lia].
  destruct (Z.ltb_spec (Z.of_nat (length l) + (-1 - Z.of_nat t)) 0); [lia|].
  destruct (Z.leb_spec (Z.of_nat (length l))
              (Z.of_nat (length l) + (-1 - Z.of_nat t))); [lia|].
  cbn [orb].
  replace (Z.to_nat (Z.of_nat (length l) + (-1 - Z.of_nat t)))
    with (length l - 1 - t)%nat by lia.
  by rewrite Hx.
Qed.

Lemma py_slice_to_back {A} (l : list A) (t : nat) :
  (0 < t)%nat → (t ≤ length l)%nat →
  py_slice_to l (-1 - Z.of_nat t + 1) = take (length l - t) l.
Proof.
  intros H0 Ht. unfold py_slice_to.
  destruct (Z.ltb_spec (-1 - Z.of_nat t + 1) 0); [|lia].
  f_equal. lia.
Qed.

Lemma find_layer_none (parsed : ParseResult) (segs : list string) (idx : list Z) :
  (∀ seg, seg ∈ segs → py_int seg = None) →
  find_layer parsed segs idx = Raise format_error.
Proof.
  intros Hnone. induction idx as [|i idx IH]; [done|]. cbn [find_layer].
  destruct (py_index segs i) as [seg|] eqn:E; [|done].
  apply py_index_elem in E. by rewrite (Hnone _ E).
Qed.

(* What the loop returns at index -1 - a is the base URL up to the segment
   of forward index len - 1 - a. *)
Lemma layer_result (parsed : ParseResult) (segs : list string) (a : nat) :
  (a < length segs)%nat →
  (if -1 - Z.of_nat a + 1 =? 0
   then Ok (scheme parsed +:+ "://" +:+ (netloc parsed +:+ join_slash segs))
   else Ok (scheme parsed +:+ "://" +:+
            (netloc parsed +:+ join_slash (py_slice_to segs (-1 - Z.of_nat a + 1)))))
  = Ok (base_url parsed segs (length segs - 1 - a)).
Proof.
  intros Ha. unfold base_url.
  destruct (Z.eqb_spec (-1 - Z.of_nat a + 1) 0) as [H0|H0].
  - rewrite (take_ge segs); [done|lia].
  - rewrite py_slice_to_back by lia.
    by replace (S (length segs - 1 - a)) with (length segs - a)%nat by lia.
Qed.

Lemma find_layer_found (parsed : ParseResult) (segs : list string)
    (k : nat) (seg : string) (z : Z) :
  segs !! k = Some seg →
  py_int seg = Some z →
  (∀ j seg', (k < j)%nat → segs !! j = Some seg' → py_int seg' = None) →
  ∀ c a : nat,
    (a ≤ length segs - 1 - k)%nat → (length segs - 1 - k < a + c)%nat →
    find_layer parsed segs (map (λ t : nat, -1 - Z.of_nat t) (seq a c))
    = Ok (base_url parsed segs k).
Proof.
  intros Hseg Hint Hlater.
  pose proof (lookup_lt_Some _ _ _ Hseg) as Hk.
  induction c as [|c IH]; intros a Ha Hc; [lia|].
  cbn [seq map find_layer].
  destruct (lookup_lt_is_Some_2 segs (length segs - 1 - a)) as [x Hx]; [lia|].
  rewrite (py_index_back segs a x Hx) by lia.
  destruct (decide (a = length segs - 1 - k)%nat) as [Heq|Hne].
  - replace (length segs - 1 - a)%nat with k in Hx by lia.
    assert (x = seg) as -> by congruence.
    rewrite Hint, layer_result by lia.
    by replace (length segs - 1 - a)%nat with k by lia.
  - rewrite (Hlater (length segs - 1 - a)%nat x); [|lia|done]. apply IH; lia.
Qed.

Lemma find_layer_inv (parsed : ParseResult) (segs : list string) (valid : string) :
  ∀ c a : nat,
    (a + c < length segs)%nat →
    find_layer parsed segs (map (λ t : nat, -1 - Z.of_nat t) (seq a c)) = Ok valid →
    ∃ (k : nat) (seg : string) (z : Z),
      (1 ≤ k)%nat ∧ segs !! k = Some seg ∧ py_int seg = Some z
      ∧ valid = base_url parsed segs k.
Proof.
  induction c as [|c IH]; intros a Hac; [done|].
  cbn [seq map find_layer].
  destruct (lookup_lt_is_Some_2 segs (length segs - 1 - a)) as [x Hx]; [lia|].
  rewrite (py_index_back segs a x Hx) by lia.
  destruct (py_int x) as [z|] eqn:Hz.
  - rewrite layer_result by lia. intros [= <-].
    exists (length segs - 1 - a)%nat, x, z. repeat split; [lia|done|done].
  - apply IH. lia.
Qed.

Lemma validate_parsed_found (parsed : ParseResult) (k : nat) (seg : string) (z : Z) :
  (1 ≤ k)%nat →
  split_slash (path parsed) !! k = Some seg →
  py_int seg = Some z →
  (∀ j seg', (k < j)%nat → split_slash (path parsed) !! j = Some seg' →
             py_int seg' = None) →
  validate_parsed parsed = Ok (base_url parsed (split_slash (path parsed)) k).
Proof.
  intros Hk Hseg Hint Hlater. unfold validate_parsed.
  rewrite validate_indices. cbn.
  pose proof (lookup_lt_Some _ _ _ Hseg).
  eapply find_layer_found; eauto; lia.
Qed.

Lemma validate_parsed_none (parsed : ParseResult) :
  (∀ seg, seg ∈ split_slash (path parsed) → py_int seg = None) →
  validate_parsed parsed = Raise format_error.
Proof.
  intros Hnone. unfold validate_parsed. rewrite validate_indices. cbn.
  by apply find_layer_none.
Qed.

Lemma validate_parsed_inv (parsed : ParseResult) (valid : string) :
  validate_parsed parsed = Ok valid →
  ∃ (k : nat) (seg : string) (z : Z),
    (1 ≤ k)%nat ∧ split_slash (path parsed) !! k = Some seg ∧ py_int seg = Some z
    ∧ valid = base_url parsed (split_slash (path parsed)) k.
Proof.
  unfold validate_parsed. rewrite validate_indices. cbn.
  pose proof (split_slash_nonempty (path parsed)).
  apply find_layer_inv.
  destruct (split_slash (path parsed)); [done|]. cbn. lia.
Qed.

Lemma validate_parsed_last (parsed : ParseResult) (valid : string) :
  validate_parsed parsed = Ok valid →
  ∃ (seg : string) (z : Z),
    last (split_slash valid) = Some seg ∧ py_int seg = Some z.
Proof.
  intros (k & seg & z & Hk & Hseg & Hz & ->)%validate_parsed_inv.
  exists seg, z. split; [|done]. unfold base_url.
  rewrite <- !append_assoc.
  apply last_split_join_take; [done..|].
  eapply split_slash_no_slash, list_elem_of_lookup_2, Hseg.
Qed.




(** C7: when no "/"-separated element of the URL's path parses as an integer,
    [_validate_url] raises the ValueError that names the expected format
    ".../MapServer/<LAYER_NUMBER>", and no session is created. *)
Theorem validate_url_rejects (urlparse : string → result ParseResult)
    (u : string) (parsed : ParseResult) :
  urlparse u = Ok parsed →
  (∀ seg, seg ∈ split_slash (path parsed) → py_int seg = None) →
  _validate_url urlparse u =
    Raise (ValueError "Unable to validate URL. Should be URL of format: https://<ARCGIS_SERVER>/arcgis/rest/services/<FOLDER(S)>/MapServer/<LAYER_NUMBER>")
  ∧ ∀ kwargs, new_session urlparse u kwargs = Raise format_error.
Proof.
  intros Hp Hnone.
  assert (Hv : _validate_url urlparse u = Raise format_error).
  { unfold _validate_url. rewrite Hp. cbn. by apply validate_parsed_none. }
  split; [exact Hv|]. intros kwargs. unfold new_session. by rewrite Hv.
Qed.

Lemma validate_url_rejects_witness :
  _validate_url urlparse_sample "https://h.org/arcgis/rest/services/F/MapServer"
  = Raise format_error.
Proof.
  refine (proj1 (validate_url_rejects urlparse_sample
            "https://h.org/arcgis/rest/services/F/MapServer"
            (parse_of "https" "h.org" "/arcgis/rest/services/F/MapServer")
            eq_refl _)).
  intros seg Hseg. cbn in Hseg.
  repeat (apply elem_of_cons in Hseg as [->|Hseg]; [reflexivity|]).
  by apply elem_of_nil in Hseg.
Defined.

(** C8 (as amended): the base URL of every session ends in a "/"-separated
    element that parses as an integer (as [int] parses it, so a sign is
    accepted), and its query endpoint is the base URL followed by "/Query". *)
Theorem service_reference_invariant (urlparse : string → result ParseResult)
    (u : string) (kwargs : gmap string pyval) (s : Session) :
  new_session urlparse u kwargs = Ok s →
  (∃ (seg : string) (z : Z),
      last (split_slash (url s)) = Some seg ∧ py_int seg = Some z)
  ∧ query_url s = url s +:+ "/Query".
Proof.
  unfold new_session.
  destruct (_validate_url urlparse u) as [valid|e] eqn:Hv; [|done].
  intros [= <-]. split; [|done].
  unfold _validate_url in Hv. destruct (urlparse u) as [parsed|e]; [|done].
  by apply (validate_parsed_last parsed).
Qed.

Lemma service_reference_invariant_witness :
  ∃ s, new_session urlparse_sample
         "https://h.org/arcgis/rest/services/F/MapServer/3/query?f=json" ∅ = Ok s
       ∧ (∃ (seg : string) (z : Z),
             last (split_slash (url s)) = Some seg ∧ py_int seg = Some z)
       ∧ query_url s = url s +:+ "/Query".
Proof.
  eexists. split; [reflexivity|].
  apply (service_reference_invariant urlparse_sample
           "https://h.org/arcgis/rest/services/F/MapServer/3/query?f=json" ∅).
  reflexivity.
Defined.

(** C8, counterexample: the URL ".../MapServer/-1" is accepted and its last
    element parses as the negative integer -1. *)
Lemma negative_layer_accepted :
  ¬ (∀ (urlparse : string → result ParseResult) (u : string)
       (kwargs : gmap string pyval) (s : Session),
        new_session urlparse u kwargs = Ok s →
        ∃ (seg : string) (z : Z),
          last (split_slash (url s)) = Some seg ∧ py_int seg = Some z ∧ 0 ≤ z).
Proof.
  intros H.
  destruct (H urlparse_sample "https://h.org/arcgis/rest/services/F/MapServer/-1"
              ∅ _ eq_refl) as (seg & z & Hlast & Hz & Hpos).
  vm_compute in Hlast. injection Hlast as <-.
  vm_compute in Hz. injection Hz as <-. lia.
Qed.

(** ** Running the page requests *)

Lemma bind_run {A B} (m : M A) (k : A → M B) (log : list Request) :
  (m ≫= k) log =
    match m log with
    | (Ok a, log') => k a log'
    | (Raise e, log') => (Raise e, log')
    end.
Proof. reflexivity. Qed.



Section Tasks.

Context {X B : Type}.
Variable f : X → M B.
Variable g : X → result B.
Hypothesis f_result : ∀ x log, (f x log).1 = g x.

Lemma py_map_fst (xs : list X) (log : list Request) :
  (py_map f xs log).1 = all_ok (map g xs).
Proof.
  revert log. induction xs as [|x xs IH]; intros log; [done|].
  cbn [py_map map all_ok]. rewrite bind_run.
  pose proof (f_result x log) as Hx.
  destruct (f x log) as [[b|e] l]; cbn in Hx; rewrite <- Hx; [|done].
  rewrite bind_run. pose proof (IH l) as Hxs.
  destruct (py_map f xs l) as [[bs|e] l']; cbn in Hxs; by rewrite <- Hxs.
Qed.

Lemma agree_init (xs : list X) : agree g xs (replicate (length xs) None).
Proof. induction xs; constructor; auto. Qed.

Lemma run_pool_agree (xs : list X) (sched : list nat) :
  ∀ futures log, agree g xs futures → agree g xs (run_pool f xs sched futures log).1.
Proof.
  induction sched as [|i sched IH]; intros futures log Hag; [done|].
  cbn [run_pool].
  destruct (xs !! i) as [x|] eqn:Hx; [|by apply IH].
  destruct (futures !! i) as [[r|]|] eqn:Hf; [by apply IH| |by apply IH].
  pose proof (f_result x log) as Hr.
  destruct (f x log) as [r l]. cbn in Hr. subst r.
  apply IH. unfold agree.
  rewrite <- (list_insert_id xs i x Hx).
  apply Forall2_insert; auto.
Qed.

Lemma gather_fst (xs : list X) :
  ∀ futures log, agree g xs futures →
                 (gather f xs futures log).1 = all_ok (map g xs).
Proof.
  induction xs as [|x xs IH]; intros futures log Hag; [done|].
  inversion Hag as [|? fut ? futures' Hfut Hrest]; subst.
  cbn [gather map all_ok]. rewrite bind_run.
  assert (Hx : ∃ l, (match fut with Some r => lift r | None => f x end) log
                    = (g x, l)).
  { destruct Hfut as [->| ->].
    - pose proof (f_result x log) as Hr. destruct (f x log) as [r l].
      cbn in Hr. subst r. by exists l.
    - by exists log. }
  destruct Hx as [l ->].
  destruct (g x) as [b|e]; [|done].
  rewrite bind_run. pose proof (IH futures' l Hrest) as Hxs.
  destruct (gather f xs futures' l) as [[bs|e] l']; cbn in Hxs; by rewrite <- Hxs.
Qed.

Lemma executor_map_fst (xs : list X) (sched : list nat) (log : list Request) :
  (executor_map f xs sched log).1 = all_ok (map g xs).
Proof.
  unfold executor_map.
  pose proof (run_pool_agree xs sched _ log (agree_init xs)) as Hag.
  destruct (run_pool f xs sched (replicate (length xs) None) log) as [futures l].
  by apply gather_fst.
Qed.

End Tasks.

Lemma make_single_request_run (transport : Request → result Response)
    (s : Session) (p : Z * Z) (log : list Request) :
  _make_single_request transport s p log =
    (transport (page_request s p), (log ++ [page_request s p])%list).
Proof. reflexivity. Qed.

Lemma fetch_pages_fst (transport : Request → result Response) (s : Session)
    (concurrent : bool) (plan : list (Z * Z)) (sched : list nat) (log : list Request) :
  (fetch_pages transport s concurrent plan sched log).1
  = all_ok (map (λ p, transport (page_request s p)) plan).
Proof.
  unfold fetch_pages. destruct concurrent.
  - by apply executor_map_fst.
  - by apply py_map_fst.
Qed.

Lemma fetch_all_fst (transport : Request → result Response) (s : Session)
    (concurrent : bool) (plan : list (Z * Z)) (sched : list nat) (log : list Request) :
  (fetch_all transport s concurrent plan sched log).1
  = (raw ← all_ok (map (λ p, transport (page_request s p)) plan);
     d ← combine raw; mret (raw, d)).
Proof.
  unfold fetch_all. rewrite bind_run.
  pose proof (fetch_pages_fst transport s concurrent plan sched log) as H.
  destruct (fetch_pages transport s concurrent plan sched log) as [[raw|e] l];
    cbn [fst] in H; rewrite <- H; [|done].
  rewrite bind_run. unfold lift, mbind, result_bind.
  by destruct (combine raw).
Qed.

Lemma all_ok_Forall2 {B} (rs : list (result B)) (bs : list B) :
  Forall2 (λ r b, r = Ok b) rs bs → all_ok rs = Ok bs.
Proof. induction 1 as [|r b rs bs -> _ IH]; [done|]. cbn. by rewrite IH. Qed.

Lemma all_ok_inv {B} (rs : list (result B)) (bs : list B) :
  all_ok rs = Ok bs → Forall2 (λ r b, r = Ok b) rs bs.
Proof.
  revert bs. induction rs as [|r rs IH]; intros bs; cbn.
  - intros [= <-]. constructor.
  - destruct r as [b|e]; [|done]. cbn.
    destruct (all_ok rs) as [bs'|e]; [|done]. cbn.
    intros [= <-]. constructor; auto.
Qed.


(** ** Merging the pages *)

Lemma merge_indices (len : nat) :
  range 1 (Z.of_nat len) 1 = Ok (map (λ k : nat, 1 + Z.of_nat k) (seq 0 (len - 1))).
Proof.
  assert (Hlen : Z.to_nat (range_len 1 (Z.of_nat len) 1) = (len - 1)%nat).
  { unfold range_len. cbn [Z.ltb Z.compare].
    destruct (Z.ltb_spec 1 (Z.of_nat len)); [|lia].
    rewrite Z.div_1_r. lia. }
  unfold range. cbn [Z.eqb]. rewrite Hlen. f_equal.
  apply map_ext. intros t. lia.
Qed.

Lemma py_index_nat {A} (l : list A) (i : nat) (x : A) :
  l !! i = Some x → py_index l (Z.of_nat i) = Ok x.
Proof.
  intros Hx. pose proof (lookup_lt_Some _ _ _ Hx). unfold py_index.
  cbv zeta. rewrite (proj2 (Z.ltb_ge (Z.of_nat i) 0)) by lia. cbv iota.
  rewrite (proj2 (Z.ltb_ge (Z.of_nat i) 0)) by lia.
  rewrite (proj2 (Z.leb_gt (Z.of_nat (length l)) (Z.of_nat i))) by lia.
  cbn [orb]. by rewrite Nat2Z.id, Hx.
Qed.

Lemma page_features_inv (r : Response) (fs : list json) :
  page_features r = Some fs →
  ∃ kvs, resp_json r = Ok (JObj kvs) ∧ assoc_get "features" kvs = Some (JArr fs).
Proof.
  unfold page_features. destruct (resp_json r) as [[| | | | |kvs]|]; try done.
  destruct (assoc_get "features" kvs) as [[| | | |l|]|] eqn:E; try done.
  intros [= <-]. by exists kvs.
Qed.

Lemma assoc_get_set (k : string) (v : json) (kvs : list (string * json)) :
  assoc_get k (assoc_set k v kvs) = Some v.
Proof.
  induction kvs as [|[k' v'] kvs IH]; cbn.
  - by rewrite String.eqb_refl.
  - destruct (String.eqb k k') eqn:E; cbn; rewrite ?String.eqb_refl, ?E; done.
Qed.

Lemma extend_features_concat (raw : list Response) :
  ∀ (c a : nat) (acc : list json) (fss : list (list json)),
    (1 + a + c = length raw)%nat →
    Forall2 (λ r fs, page_features r = Some fs) (drop (1 + a) raw) fss →
    extend_features raw (map (λ k : nat, 1 + Z.of_nat k) (seq a c)) (JArr acc)
    = Ok (JArr (acc ++ concat fss)).
Proof.
  induction c as [|c IH]; intros a acc fss Hlen Hfs.
  - rewrite drop_ge in Hfs by lia. inversion Hfs. cbn. by rewrite app_nil_r.
  - destruct (lookup_lt_is_Some_2 raw (1 + a)) as [r Hr]; [lia|].
    rewrite (drop_S _ _ _ Hr) in Hfs.
    inversion Hfs as [|? fs ? fss' Hfs0 Hrest]; subst.
    destruct (page_features_inv _ _ Hfs0) as (kvs & Hj & Hget).
    cbn [seq map extend_features].
    replace (1 + Z.of_nat a) with (Z.of_nat (1 + a)) by lia.
    rewrite (py_index_nat _ _ _ Hr). cbn. rewrite Hj. cbn. rewrite Hget. cbn.
    rewrite (IH (S a) (acc ++ fs)%list fss'); [|lia|done].
    cbn [concat]. by rewrite app_assoc.
Qed.

Lemma combine_cons (r0 : Response) (rest : list Response) :
  combine (r0 :: rest) =
    match resp_json r0 with
    | Ok initial_json =>
        match getitem initial_json "features" with
        | Ok features =>
            match extend_features (r0 :: rest)
                    (map (λ k : nat, 1 + Z.of_nat k) (seq 0 (length rest))) features with
            | Ok features' =>
                Ok match initial_json, features with
                   | JObj kvs, JArr _ => JObj (assoc_set "features" features' kvs)
                   | _, _ => initial_json
                   end
            | Raise e => Raise e
            end
        | Raise e => Raise e
        end
    | Raise e => Raise e
    end.
Proof.
  unfold combine. change 0 with (Z.of_nat 0).
  rewrite (py_index_nat (r0 :: rest) 0 r0 eq_refl), merge_indices.
  replace (length (r0 :: rest) - 1)%nat with (length rest) by (cbn; lia).
  unfold mbind, mret, result_bind, result_ret.
  destruct (resp_json r0) as [page|]; [|done].
  by destruct (getitem page "features").
Qed.

Lemma combine_concat (raw : list Response) (fss : list (list json)) :
  raw ≠ [] →
  Forall2 (λ r fs, page_features r = Some fs) raw fss →
  ∃ d, combine raw = Ok d ∧ getitem d "features" = Ok (JArr (concat fss)).
Proof.
  intros Hne Hfs. destruct raw as [|r0 rest]; [done|].
  inversion Hfs as [|? fs0 ? fss' Hfs0 Hrest]; subst.
  destruct (page_features_inv _ _ Hfs0) as (kvs & Hj & Hget).
  exists (JObj (assoc_set "features" (JArr (fs0 ++ concat fss')%list) kvs)).
  split.
  - rewrite combine_cons, Hj. cbn [getitem]. rewrite Hget.
    by rewrite (extend_features_concat (r0 :: rest) (length rest) 0 fs0 fss').
  - cbn. by rewrite assoc_get_set.
Qed.



(** ** The constructor *)

Section Init.

Variable transport : Request → result Response.
Variable urlparse : string → result ParseResult.
Variable frame_error : json → pyval → option exn.
Variables (u : string) (kwargs : gmap string pyval).
Variables (s : Session) (n m : Z) (sch pag geo : json) (plan : list (Z * Z)).
Variables (log log1 : list Request).

Hypothesis session_ok : new_session urlparse u kwargs = Ok s.
Hypothesis metadata_ok :
  _get_metadata transport s log = (Ok (n, m, sch, pag, geo), log1).
Hypothesis plan_ok : request_urls n m = Ok plan.

Lemma init_run (concurrent : bool) (sched : list nat) :
  __init__ transport urlparse frame_error u concurrent kwargs sched log =
    match fetch_all transport s concurrent plan sched log1 with
    | (Ok (raw, d), l) =>
        match getitem d "features" with
        | Ok feats =>
            match to_gdf frame_error feats (_query_outSR s) with
            | Ok frame =>
                (Ok {| self := s; n_records := n; max_record_count := m;
                       schema := sch; pagination_supported := pag;
                       geometry_type := geo; _request_urls := plan;
                       _raw_responses := raw; data := d; gdf := frame |}, l)
            | Raise e => (Raise e, l)
            end
        | Raise e => (Raise e, l)
        end
    | (Raise e, l) => (Raise e, l)
    end.
Proof.
  unfold __init__. rewrite bind_run. unfold lift at 1. rewrite session_ok.
  rewrite bind_run, metadata_ok. rewrite bind_run. unfold lift at 1.
  rewrite plan_ok. rewrite bind_run.
  destruct (fetch_all transport s concurrent plan sched log1) as [[[raw d]|e] l];
    [|done].
  rewrite bind_run. unfold lift at 1.
  destruct (getitem d "features") as [feats|]; [|done].
  rewrite bind_run. unfold lift.
  by destruct (to_gdf frame_error feats (_query_outSR s)).
Qed.

End Init.

Example sample_session_eq : new_session urlparse_sample sample_url ∅ = Ok sample_session.
Proof. reflexivity. Qed.

Example mock_good_metadata :
  _get_metadata mock_good sample_session [] = (Ok (sample_metadata 250 100), metadata_requests).
Proof. reflexivity. Qed.

Example mock_good_run :
  (__init__ mock_good urlparse_sample frame_error_sample sample_url true ∅ [2; 0; 1]%nat []).1
  = (__init__ mock_good urlparse_sample frame_error_sample sample_url false ∅ [] []).1.
Proof. vm_compute. reflexivity. Qed.

(** ** Fetch and merge *)

Lemma length_concat_sum {A} (ls : list (list A)) :
  length (concat ls) = sum_list (length <$> ls).
Proof. induction ls as [|l ls IH]; [done|]. cbn. by rewrite length_app, IH. Qed.

Lemma fetch_all_ok_inv (transport : Request → result Response) (s : Session)
    (concurrent : bool) (plan : list (Z * Z)) (sched : list nat) (log : list Request)
    (raw : list Response) (d : json) :
  all_ok (map (λ p, transport (page_request s p)) plan) = Ok raw →
  combine raw = Ok d →
  ∃ l, fetch_all transport s concurrent plan sched log = (Ok (raw, d), l).
Proof.
  intros Hraw Hd.
  pose proof (fetch_all_fst transport s concurrent plan sched log) as H.
  rewrite Hraw in H. cbn in H. rewrite Hd in H. cbn in H.
  destruct (fetch_all transport s concurrent plan sched log) as [r l].
  cbn in H. subst r. by exists l.
Qed.


Lemma run_pool_nil {X B} (f : X → M B) (sched : list nat) (log : list Request) :
  run_pool f [] sched [] log = ([], log).
Proof. induction sched as [|i sched IH]; [done|]. cbn. by rewrite IH. Qed.

Lemma fetch_all_nil (transport : Request → result Response) (s : Session)
    (concurrent : bool) (sched : list nat) (log : list Request) :
  fetch_all transport s concurrent [] sched log
  = (Raise (IndexError "list index out of range"), log).
Proof.
  unfold fetch_all, fetch_pages. rewrite bind_run.
  destruct concurrent.
  - unfold executor_map. cbn [length replicate]. by rewrite run_pool_nil.
  - done.
Qed.


Lemma to_gdf_ok (frame_error : json → pyval → option exn) (feats : json)
    (outSR : pyval) (frame : GeoDataFrame) :
  to_gdf frame_error feats outSR = Ok frame →
  gdf_features frame = feats
  ∧ gdf_crs frame = if decide (outSR ≠ PStr "") then outSR else PInt 4236.
Proof.
  unfold to_gdf, from_features.
  destruct (decide (outSR ≠ PStr "")); destruct (frame_error _ _); try done;
    by intros [= <-].
Qed.

(** C3: whenever every page answer of the plan has a feature array, the
    merged collection [data] of the constructed object holds, under
    "features", the concatenation of the pages' feature arrays in plan order,
    and its length is the sum of the pages' lengths; the same array is handed
    to the GeoDataFrame.  With at least one page the fetch and the merge
    succeed, and the constructor returns the object exactly when
    [GeoDataFrame.from_features] accepts the merged array. *)
Theorem merged_features_in_plan_order (transport : Request → result Response)
    (urlparse : string → result ParseResult)
    (frame_error : json → pyval → option exn) (u : string)
    (kwargs : gmap string pyval) (concurrent : bool) (sched : list nat)
    (log log1 : list Request) (s : Session) (n m : Z) (sch pag geo : json)
    (plan : list (Z * Z)) (fss : list (list json)) :
  new_session urlparse u kwargs = Ok s →
  _get_metadata transport s log = (Ok (n, m, sch, pag, geo), log1) →
  request_urls n m = Ok plan →
  Forall2 (λ p fs, ∃ r, transport (page_request s p) = Ok r
                        ∧ page_features r = Some fs) plan fss →
  (∀ (a : AIMS) (log' : list Request),
      __init__ transport urlparse frame_error u concurrent kwargs sched log = (Ok a, log') →
      _request_urls a = plan
      ∧ getitem (data a) "features" = Ok (JArr (concat fss))
      ∧ gdf_features (gdf a) = JArr (concat fss)
      ∧ length (concat fss) = sum_list (length <$> fss))
  ∧ (plan ≠ [] →
     ∃ (raw : list Response) (d : json) (log' : list Request),
       fetch_all transport s concurrent plan sched log1 = (Ok (raw, d), log')
       ∧ getitem d "features" = Ok (JArr (concat fss))
       ∧ __init__ transport urlparse frame_error u concurrent kwargs sched log
         = match to_gdf frame_error (JArr (concat fss)) (_query_outSR s) with
           | Ok frame =>
               (Ok {| self := s; n_records := n; max_record_count := m;
                      schema := sch; pagination_supported := pag;
                      geometry_type := geo; _request_urls := plan;
                      _raw_responses := raw; data := d; gdf := frame |}, log')
           | Raise e => (Raise e, log')
           end).
Proof.
  intros Hs Hmd Hplan Hpages.
  rewrite (init_run transport urlparse frame_error u kwargs s n m sch pag geo plan
             log log1 Hs Hmd Hplan).
  destruct (decide (plan = [])) as [->|Hne].
  { rewrite fetch_all_nil. by split. }
  assert (∃ raw, Forall2 (λ p r, transport (page_request s p) = Ok r) plan raw
                 ∧ Forall2 (λ r fs, page_features r = Some fs) raw fss)
    as (raw & Hraw & Hfs).
  { clear -Hpages. induction Hpages as [|p fs plan fss (r & Hr & Hf) _ (raw & ? & ?)].
    - exists []. split; constructor.
    - exists (r :: raw). split; by constructor. }
  assert (Hall : all_ok (map (λ p, transport (page_request s p)) plan) = Ok raw).
  { apply all_ok_Forall2. by apply Forall2_fmap_l. }
  assert (raw ≠ []) as Hraw_ne.
  { intros ->. apply Forall2_nil_inv_r in Hraw. done. }
  destruct (combine_concat raw fss Hraw_ne Hfs) as (d & Hd & Hget).
  destruct (fetch_all_ok_inv transport s concurrent plan sched log1 raw d Hall Hd)
    as [l Hfetch].
  rewrite Hfetch, Hget. split.
  - destruct (to_gdf frame_error (JArr (concat fss)) (_query_outSR s))
      as [frame|] eqn:Hframe; [|done].
    intros a log' [= <- <-]. cbn.
    split; [done|]. split; [done|]. split; [|apply length_concat_sum].
    by apply (to_gdf_ok _ _ _ _ Hframe).
  - intros _. by exists raw, d, l.
Qed.

Lemma merged_features_in_plan_order_witness :
  (∀ (a : AIMS) (log' : list Request),
      __init__ mock_good urlparse_sample frame_error_sample sample_url true ∅
        [2; 0; 1]%nat [] = (Ok a, log') →
      _request_urls a = [(0, 100); (100, 100); (200, 100)]
      ∧ getitem (data a) "features"
        = Ok (JArr (concat [two_features 0; two_features 100; two_features 200]))
      ∧ gdf_features (gdf a)
        = JArr (concat [two_features 0; two_features 100; two_features 200])
      ∧ length (concat [two_features 0; two_features 100; two_features 200])
        = sum_list (length <$> [two_features 0; two_features 100; two_features 200]))
  ∧ ([(0, 100); (100, 100); (200, 100)] ≠ [] →
     ∃ (raw : list Response) (d : json) (log' : list Request),
       fetch_all mock_good sample_session true [(0, 100); (100, 100); (200, 100)]
         [2; 0; 1]%nat metadata_requests = (Ok (raw, d), log')
       ∧ getitem d "features"
         = Ok (JArr (concat [two_features 0; two_features 100; two_features 200]))
       ∧ __init__ mock_good urlparse_sample frame_error_sample sample_url true ∅
           [2; 0; 1]%nat []
         = match to_gdf frame_error_sample
                   (JArr (concat [two_features 0; two_features 100; two_features 200]))
                   (_query_outSR sample_session) with
           | Ok frame =>
               (Ok {| self := sample_session; n_records := 250;
                      max_record_count := 100; schema := JArr [];
                      pagination_supported := JBool true;
                      geometry_type := JStr "esriGeometryPoint";
                      _request_urls := [(0, 100); (100, 100); (200, 100)];
                      _raw_responses := raw; data := d; gdf := frame |}, log')
           | Raise e => (Raise e, log')
           end).
Proof.
  apply (merged_features_in_plan_order mock_good urlparse_sample frame_error_sample
           sample_url ∅ true
           [2; 0; 1]%nat [] metadata_requests sample_session 250 100
           (JArr []) (JBool true) (JStr "esriGeometryPoint")
           [(0, 100); (100, 100); (200, 100)]).
  - reflexivity.
  - reflexivity.
  - reflexivity.
  - repeat constructor; eexists; split; reflexivity.
Defined.

Lemma all_ok_raise_elem {B} (rs : list (result B)) (e : exn) :
  Raise e ∈ rs → ∃ e', all_ok rs = Raise e'.
Proof.
  induction rs as [|r rs IH]; [by intros ?%elem_of_nil|].
  intros Hin. destruct r as [b|e0]; [|by eexists].
  apply elem_of_cons in Hin as [?|Hin]; [done|].
  destruct (IH Hin) as [e' He']. exists e'. cbn. by rewrite He'.
Qed.





(** ** The empty service *)

(** C1: with a total record count of 0 the plan is empty, no page request is
    made, and the constructor raises IndexError at [self._raw_responses[0]];
    there is no single page at offset 0 and no empty collection. *)
Theorem empty_service_raises (transport : Request → result Response)
    (urlparse : string → result ParseResult)
    (frame_error : json → pyval → option exn) (u : string)
    (kwargs : gmap string pyval) (concurrent : bool) (sched : list nat)
    (log log1 : list Request) (s : Session) (m : Z) (sch pag geo : json) :
  new_session urlparse u kwargs = Ok s →
  _get_metadata transport s log = (Ok (0, m, sch, pag, geo), log1) →
  m ≠ 0 →
  request_urls 0 m = Ok []
  ∧ __init__ transport urlparse frame_error u concurrent kwargs sched log
    = (Raise (IndexError "list index out of range"), log1).
Proof.
  intros Hs Hmd Hm.
  assert (Hplan : request_urls 0 m = Ok []).
  { rewrite request_urls_eq by done.
    replace (range_len 0 0 m) with 0; [done|].
    unfold range_len. by destruct (0 <? m). }
  split; [done|].
  by rewrite (init_run transport urlparse frame_error u kwargs s 0 m sch pag geo [] log log1
                Hs Hmd Hplan), fetch_all_nil.
Qed.

Lemma empty_service_raises_witness :
  request_urls 0 1000 = Ok []
  ∧ __init__ mock_empty urlparse_sample frame_error_sample sample_url true ∅ [] []
    = (Raise (IndexError "list index out of range"), metadata_requests).
Proof.
  apply (empty_service_raises mock_empty urlparse_sample frame_error_sample sample_url ∅ true [] []
           metadata_requests sample_session 1000
           (JArr []) (JBool true) (JStr "esriGeometryPoint")).
  - reflexivity.
  - reflexivity.
  - lia.
Defined.

(** ** The page request and the output CRS *)

(** C9: an "objectIds" keyword argument is stored in the session but is not
    among the parameters of the page request; the request is one GET to the
    query endpoint whose parameters are exactly where, text, geometry,
    geometryType, inSR, spatialRel, outFields, outSR, resultOffset,
    resultRecordCount and f. *)
Theorem page_request_omits_objectIds (transport : Request → result Response)
    (urlparse : string → result ParseResult) (u : string)
    (kwargs : gmap string pyval) (s : Session) (v : pyval) (p : Z * Z)
    (log : list Request) :
  new_session urlparse u kwargs = Ok s →
  kwargs !! "objectIds" = Some v →
  _query_objectIds s = v
  ∧ _make_single_request transport s p log
    = (transport (page_request s p), (log ++ [page_request s p])%list)
  ∧ req_url (page_request s p) = query_url s
  ∧ req_params (page_request s p) !! "objectIds" = None
  ∧ dom (req_params (page_request s p))
    = list_to_set ["where"; "text"; "geometry"; "geometryType"; "inSR";
                   "spatialRel"; "outFields"; "outSR"; "resultOffset";
                   "resultRecordCount"; "f"]
  ∧ req_params (page_request s p) !! "resultOffset" = Some (PInt p.1)
  ∧ req_params (page_request s p) !! "resultRecordCount" = Some (PInt p.2)
  ∧ req_params (page_request s p) !! "f" = Some (PStr "geojson").
Proof.
  intros Hs Hkw. split.
  - unfold new_session in Hs. destruct (_validate_url urlparse u); [|done].
    injection Hs as <-. cbn. by rewrite Hkw.
  - repeat split.
Qed.

Lemma page_request_omits_objectIds_witness :
  _query_objectIds
    {| url := sample_url; query_url := sample_url +:+ "/Query";
       _query_where := PStr "1=1"; _query_text := PStr "";
       _query_objectIds := PStr "1,2,3"; _query_geometry := PStr "";
       _query_geometryType := PStr ""; _query_inSR := PStr "";
       _query_spatialRel := PStr ""; _query_outFields := PStr "*";
       _query_outSR := PStr "" |} = PStr "1,2,3"
  ∧ req_params
      (page_request
         {| url := sample_url; query_url := sample_url +:+ "/Query";
            _query_where := PStr "1=1"; _query_text := PStr "";
            _query_objectIds := PStr "1,2,3"; _query_geometry := PStr "";
            _query_geometryType := PStr ""; _query_inSR := PStr "";
            _query_spatialRel := PStr ""; _query_outFields := PStr "*";
            _query_outSR := PStr "" |} (0, 100)) !! "objectIds" = None.
Proof.
  pose proof (page_request_omits_objectIds mock_good urlparse_sample sample_url
                {[ "objectIds" := PStr "1,2,3" ]} _ (PStr "1,2,3") (0, 100) []
                eq_refl eq_refl) as (H1 & _ & _ & H2 & _).
  exact (conj H1 H2).
Defined.

(** C10: when the "outSR" keyword argument is absent (or is the empty string)
    the GeoDataFrame is built with crs=4236, which is not EPSG:4326; otherwise
    it is built with the value of "outSR". *)
Theorem output_crs (urlparse : string → result ParseResult)
    (frame_error : json → pyval → option exn) (u : string)
    (kwargs : gmap string pyval) (s : Session) (feats : json) :
  new_session urlparse u kwargs = Ok s →
  to_gdf frame_error feats (_query_outSR s)
  = from_features frame_error feats
      match kwargs !! "outSR" with
      | Some v => if decide (v = PStr "") then PInt 4236 else v
      | None => PInt 4236
      end
  ∧ ∀ frame, to_gdf frame_error feats (_query_outSR s) = Ok frame →
             gdf_crs frame
             = match kwargs !! "outSR" with
               | Some v => if decide (v = PStr "") then PInt 4236 else v
               | None => PInt 4236
               end.
Proof.
  unfold new_session. destruct (_validate_url urlparse u); [|done].
  intros [= <-]. cbn [_query_outSR].
  assert (Hcall : to_gdf frame_error feats (default (PStr "") (kwargs !! "outSR"))
                  = from_features frame_error feats
                      match kwargs !! "outSR" with
                      | Some v => if decide (v = PStr "") then PInt 4236 else v
                      | None => PInt 4236
                      end).
  { unfold to_gdf. destruct (kwargs !! "outSR") as [v|]; simpl default.
    - destruct (decide (v = PStr "")) as [->|Hv].
      + by destruct (decide (PStr "" ≠ PStr "")) as [Hn|].
      + by destruct (decide (v ≠ PStr "")) as [|Hn]; [|destruct Hn].
    - done. }
  split; [exact Hcall|].
  intros frame. rewrite Hcall. unfold from_features.
  destruct (frame_error _ _); [done|]. by intros [= <-].
Qed.

Lemma output_crs_witness :
  to_gdf frame_error_sample (JArr []) (_query_outSR sample_session)
  = from_features frame_error_sample (JArr []) (PInt 4236).
Proof.
  exact (proj1 (output_crs urlparse_sample frame_error_sample sample_url ∅
                  sample_session (JArr []) eq_refl)).
Defined.

(** * Further properties *)

(** ** The page plan: coverage and degenerate metadata *)

Lemma request_urls_shape (n m : Z) :
  0 < n → 0 < m →
  ∃ K : nat,
    request_urls n m = Ok (map (λ k : nat, (Z.of_nat k * m, m)) (seq 0 K))
    ∧ (∀ k : nat, (k < K)%nat ↔ Z.of_nat k * m < n).
Proof.
  intros Hn Hm. exists (Z.to_nat (range_len 0 n m)). split.
  - apply request_urls_eq. lia.
  - by apply range_len_up.
Qed.

Lemma elem_of_plan (m : Z) (K : nat) (o sz : Z) :
  (o, sz) ∈ map (λ k : nat, (Z.of_nat k * m, m)) (seq 0 K)
  ↔ ∃ k : nat, (k < K)%nat ∧ o = Z.of_nat k * m ∧ sz = m.
Proof.
  rewrite list_elem_of_In, in_map_iff. split.
  - intros (k & [= <- <-] & Hk%in_seq). exists k. split; [lia|done].
  - intros (k & Hk & -> & ->). exists k. split; [done|]. apply in_seq. lia.
Qed.

(** X1: for a positive record count and page size, every record index
    0 <= i < n lies in exactly one page [o, o + size) of the plan, every page
    has the full page size, and every page starts at a multiple of the page
    size below the record count. *)
Theorem plan_covers_records (n m : Z) :
  0 < n → 0 < m →
  ∃ plan : list (Z * Z),
    request_urls n m = Ok plan
    ∧ (∀ i, 0 ≤ i < n →
         ∃ o, (o, m) ∈ plan ∧ o ≤ i < o + m
              ∧ ∀ o' sz, (o', sz) ∈ plan → o' ≤ i < o' + sz → o' = o)
    ∧ (∀ o sz, (o, sz) ∈ plan → 0 ≤ o < n ∧ sz = m ∧ o `mod` m = 0).
Proof.
  intros Hn Hm. destruct (request_urls_shape n m Hn Hm) as (K & Hplan & HK).
  eexists. split; [exact Hplan|]. split.
  - intros i Hi.
    assert (Hq : 0 ≤ i `div` m) by (apply Z.div_pos; lia).
    pose proof (Z.mul_div_le i m Hm) as Hlo.
    pose proof (Z.mul_succ_div_gt i m Hm) as Hhi.
    exists (i `div` m * m). split; [|split; [lia|]].
    + apply elem_of_plan. exists (Z.to_nat (i `div` m)).
      rewrite Z2Nat.id by done. split; [|done]. apply HK.
      rewrite Z2Nat.id by done. lia.
    + intros o' sz (k & _ & -> & ->)%elem_of_plan Hk.
      f_equal. apply (Z.div_unique_pos i m _ (i - Z.of_nat k * m)); lia.
  - intros o sz (k & Hk%HK & -> & ->)%elem_of_plan.
    split; [lia|]. split; [done|]. apply Z.mod_mul. lia.
Qed.

Lemma plan_covers_records_witness :
  ∃ plan : list (Z * Z),
    request_urls 1200 500 = Ok plan
    ∧ (∀ i, 0 ≤ i < 1200 →
         ∃ o, (o, 500) ∈ plan ∧ o ≤ i < o + 500
              ∧ ∀ o' sz, (o', sz) ∈ plan → o' ≤ i < o' + sz → o' = o)
    ∧ (∀ o sz, (o, sz) ∈ plan → 0 ≤ o < 1200 ∧ sz = 500 ∧ o `mod` 500 = 0).
Proof. apply (plan_covers_records 1200 500); lia. Defined.

(** X2: for a positive record count and page size the plan has
    ceil(n / m) pages, and its last page is requested with the full page
    size even when fewer records remain: it starts below n and ends at or
    after n. *)
Theorem plan_length_and_last_page (n m : Z) :
  0 < n → 0 < m →
  ∃ (plan : list (Z * Z)) (o : Z),
    request_urls n m = Ok plan
    ∧ Z.of_nat (length plan) = (n + m - 1) `div` m
    ∧ last plan = Some (o, m)
    ∧ o < n ≤ o + m.
Proof.
  intros Hn Hm. destruct (request_urls_shape n m Hn Hm) as (K & Hplan & HK).
  assert (HK0 : (0 < K)%nat) by (apply HK; lia).
  assert (Hlast : Z.of_nat (K - 1) * m < n) by (apply HK; lia).
  assert (Hend : ¬ Z.of_nat K * m < n) by (rewrite <- HK; lia).
  exists (map (λ k : nat, (Z.of_nat k * m, m)) (seq 0 K)), (Z.of_nat (K - 1) * m).
  split; [done|]. split; [|split].
  - rewrite length_map, length_seq.
    apply (Z.div_unique_pos _ m _ (n + m - 1 - m * Z.of_nat K)); nia.
  - replace K with (S (K - 1)) at 1 by lia.
    rewrite seq_S, map_app. cbn [map Nat.add]. by rewrite last_snoc.
  - nia.
Qed.

Lemma plan_length_and_last_page_witness :
  ∃ (plan : list (Z * Z)) (o : Z),
    request_urls 250 100 = Ok plan
    ∧ Z.of_nat (length plan) = (250 + 100 - 1) `div` 100
    ∧ last plan = Some (o, 100)
    ∧ o < 250 ≤ o + 100.
Proof. apply (plan_length_and_last_page 250 100); lia. Defined.

(** ** The constructor: order of the steps *)

Lemma init_ok_inv (transport : Request → result Response)
    (urlparse : string → result ParseResult)
    (frame_error : json → pyval → option exn) (u : string) (concurrent : bool)
    (kwargs : gmap string pyval) (sched : list nat) (log l : list Request) (a : AIMS) :
  __init__ transport urlparse frame_error u concurrent kwargs sched log = (Ok a, l) →
  ∃ s n m sch pag geo log1 plan raw d feats frame,
    new_session urlparse u kwargs = Ok s
    ∧ _get_metadata transport s log = (Ok (n, m, sch, pag, geo), log1)
    ∧ request_urls n m = Ok plan
    ∧ fetch_all transport s concurrent plan sched log1 = (Ok (raw, d), l)
    ∧ getitem d "features" = Ok feats
    ∧ to_gdf frame_error feats (_query_outSR s) = Ok frame
    ∧ a = {| self := s; n_records := n; max_record_count := m; schema := sch;
             pagination_supported := pag; geometry_type := geo;
             _request_urls := plan; _raw_responses := raw; data := d;
             gdf := frame |}.
Proof.
  unfold __init__. rewrite bind_run. unfold lift at 1.
  destruct (new_session urlparse u kwargs) as [s|e] eqn:Hs; [|done].
  rewrite bind_run.
  destruct (_get_metadata transport s log) as [[[[[[n m] sch] pag] geo]|e] log1] eqn:Hmd;
    [|done].
  rewrite bind_run. unfold lift at 1.
  destruct (request_urls n m) as [plan|e] eqn:Hplan; [|done].
  rewrite bind_run.
  destruct (fetch_all transport s concurrent plan sched log1) as [[[raw d]|e] l1] eqn:Hf;
    [|done].
  rewrite bind_run. unfold lift at 1.
  destruct (getitem d "features") as [feats|e] eqn:Hfeats; [|done].
  rewrite bind_run. unfold lift.
  destruct (to_gdf frame_error feats (_query_outSR s)) as [frame|e] eqn:Hframe;
    [|done].
  intros [= <- <-].
  by exists s, n, m, sch, pag, geo, log1, plan, raw, d, feats, frame.
Qed.

Lemma init_plan_raises (transport : Request → result Response)
    (urlparse : string → result ParseResult)
    (frame_error : json → pyval → option exn) (u : string) (concurrent : bool)
    (kwargs : gmap string pyval) (sched : list nat) (log log1 : list Request)
    (s : Session) (n m : Z) (sch pag geo : json) (e : exn) :
  new_session urlparse u kwargs = Ok s →
  _get_metadata transport s log = (Ok (n, m, sch, pag, geo), log1) →
  request_urls n m = Raise e →
  __init__ transport urlparse frame_error u concurrent kwargs sched log = (Raise e, log1).
Proof.
  intros Hs Hmd Hplan. unfold __init__. rewrite bind_run. unfold lift at 1.
  rewrite Hs, bind_run, Hmd, bind_run. unfold lift at 1. by rewrite Hplan.
Qed.

(** X3: a URL that [_validate_url] rejects, or that [urlparse] cannot parse,
    makes the constructor raise that exception before any request is made:
    the log of requests is unchanged. *)
Theorem invalid_url_no_request (transport : Request → result Response)
    (urlparse : string → result ParseResult)
    (frame_error : json → pyval → option exn) (u : string) (concurrent : bool)
    (kwargs : gmap string pyval) (sched : list nat) (log : list Request) (e : exn) :
  _validate_url urlparse u = Raise e →
  __init__ transport urlparse frame_error u concurrent kwargs sched log = (Raise e, log).
Proof.
  intros Hv. unfold __init__, new_session. rewrite bind_run. unfold lift.
  by rewrite Hv.
Qed.

Lemma invalid_url_no_request_witness :
  __init__ mock_good urlparse_sample frame_error_sample "https://h.org/arcgis/rest/services/F/MapServer"
    true ∅ [] [] = (Raise format_error, []).
Proof.
  apply (invalid_url_no_request mock_good urlparse_sample frame_error_sample
           "https://h.org/arcgis/rest/services/F/MapServer" true ∅ [] [] format_error).
  reflexivity.
Defined.

(** X4: a maximum record count of 0 in the service description makes the
    plan computation raise ValueError (the step of [range] is zero); the
    constructor raises it after the two metadata requests and makes no page
    request. *)
Theorem zero_page_size_raises (transport : Request → result Response)
    (urlparse : string → result ParseResult)
    (frame_error : json → pyval → option exn) (u : string) (concurrent : bool)
    (kwargs : gmap string pyval) (sched : list nat) (log log1 : list Request)
    (s : Session) (n : Z) (sch pag geo : json) :
  new_session urlparse u kwargs = Ok s →
  _get_metadata transport s log = (Ok (n, 0, sch, pag, geo), log1) →
  __init__ transport urlparse frame_error u concurrent kwargs sched log
  = (Raise (ValueError "range() arg 3 must not be zero"), log1).
Proof.
  intros Hs Hmd.
  by apply (init_plan_raises transport urlparse frame_error u concurrent kwargs sched log log1
              s n 0 sch pag geo).
Qed.

Lemma zero_page_size_raises_witness :
  __init__ (mock_service 250 0 (λ o, Ok (ok_page []))) urlparse_sample frame_error_sample sample_url
    false ∅ [] []
  = (Raise (ValueError "range() arg 3 must not be zero"), metadata_requests).
Proof.
  apply (zero_page_size_raises (mock_service 250 0 (λ o, Ok (ok_page [])))
           urlparse_sample frame_error_sample sample_url false ∅ [] [] metadata_requests sample_session
           250 (JArr []) (JBool true) (JStr "esriGeometryPoint")).
  - reflexivity.
  - reflexivity.
Defined.

(** X5: a record count that is not positive with a positive page size, or a
    negative page size with a non-negative record count, gives an empty plan;
    the constructor then makes no page request and raises IndexError. *)
Theorem degenerate_metadata_raises (transport : Request → result Response)
    (urlparse : string → result ParseResult)
    (frame_error : json → pyval → option exn) (u : string) (concurrent : bool)
    (kwargs : gmap string pyval) (sched : list nat) (log log1 : list Request)
    (s : Session) (n m : Z) (sch pag geo : json) :
  new_session urlparse u kwargs = Ok s →
  _get_metadata transport s log = (Ok (n, m, sch, pag, geo), log1) →
  (0 < m ∧ n ≤ 0) ∨ (m < 0 ∧ 0 ≤ n) →
  request_urls n m = Ok []
  ∧ __init__ transport urlparse frame_error u concurrent kwargs sched log
    = (Raise (IndexError "list index out of range"), log1).
Proof.
  intros Hs Hmd Hdeg.
  assert (Hplan : request_urls n m = Ok []).
  { rewrite request_urls_eq by lia.
    replace (range_len 0 n m) with 0; [done|].
    unfold range_len.
    destruct (Z.ltb_spec 0 m), (Z.ltb_spec 0 n), (Z.ltb_spec n 0); lia. }
  split; [done|].
  by rewrite (init_run transport urlparse frame_error u kwargs s n m sch pag geo [] log log1
                Hs Hmd Hplan), fetch_all_nil.
Qed.

Lemma degenerate_metadata_raises_witness :
  request_urls 250 (-100) = Ok []
  ∧ __init__ (mock_service 250 (-100) (λ o, Ok (ok_page []))) urlparse_sample frame_error_sample
      sample_url true ∅ [1; 0]%nat []
    = (Raise (IndexError "list index out of range"), metadata_requests).
Proof.
  apply (degenerate_metadata_raises (mock_service 250 (-100) (λ o, Ok (ok_page [])))
           urlparse_sample frame_error_sample sample_url true ∅ [1; 0]%nat [] metadata_requests
           sample_session 250 (-100) (JArr []) (JBool true) (JStr "esriGeometryPoint")).
  - reflexivity.
  - reflexivity.
  - lia.
Defined.

(** ** Service metadata *)

Lemma get_run (transport : Request → result Response) (u : string)
    (ps : gmap string pyval) (log : list Request) :
  get transport u ps log
  = (transport {| req_url := u; req_params := ps |},
     (log ++ [{| req_url := u; req_params := ps |}])%list).
Proof. reflexivity. Qed.

Lemma lift_bind_run {A B} (r : result A) (k : A → M B) (log : list Request) :
  (lift r ≫= k) log = match r with Ok a => k a log | Raise e => (Raise e, log) end.
Proof. rewrite bind_run. unfold lift. by destruct r. Qed.

(** X6: when [_get_metadata] returns, it has made exactly two requests, in
    this order: the service description at the base URL with f=json, and the
    count at the query endpoint with returnCountOnly=true, where=1=1 and
    f=json.  The values returned are read from the two answers: the maximum
    record count is int() of "maxRecordCount", the total is int() of "count",
    the schema is "fields", the geometry type is "geometryType" and the
    pagination flag is "advancedQueryCapabilities"/"supportsPagination". *)
Theorem get_metadata_ok (transport : Request → result Response) (s : Session)
    (log log' : list Request) (n m : Z) (sch pag geo : json) :
  _get_metadata transport s log = (Ok (n, m, sch, pag, geo), log') →
  log' = (log ++ [metadata_request s; count_request s])%list
  ∧ ∃ r1 doc r2 cdoc mrc aqc cnt,
      transport (metadata_request s) = Ok r1 ∧ resp_json r1 = Ok doc
      ∧ transport (count_request s) = Ok r2 ∧ resp_json r2 = Ok cdoc
      ∧ getitem doc "maxRecordCount" = Ok mrc ∧ int_of_json mrc = Ok m
      ∧ getitem doc "advancedQueryCapabilities" = Ok aqc
      ∧ getitem aqc "supportsPagination" = Ok pag
      ∧ getitem doc "fields" = Ok sch
      ∧ getitem doc "geometryType" = Ok geo
      ∧ getitem cdoc "count" = Ok cnt ∧ int_of_json cnt = Ok n.
Proof.
  unfold _get_metadata. rewrite bind_run, get_run.
  fold (metadata_request s).
  destruct (transport (metadata_request s)) as [r1|e] eqn:Hr1; [|done].
  rewrite lift_bind_run. destruct (resp_json r1) as [doc|e] eqn:Hdoc; [|done].
  rewrite lift_bind_run.
  destruct (getitem doc "maxRecordCount") as [mrc|e] eqn:Hmrc; [|done].
  rewrite lift_bind_run. destruct (int_of_json mrc) as [m'|e] eqn:Hm; [|done].
  rewrite lift_bind_run.
  destruct (getitem doc "advancedQueryCapabilities") as [aqc|e] eqn:Haqc; [|done].
  rewrite lift_bind_run.
  destruct (getitem aqc "supportsPagination") as [pag'|e] eqn:Hpag; [|done].
  rewrite lift_bind_run. destruct (getitem doc "fields") as [sch'|e] eqn:Hsch; [|done].
  rewrite lift_bind_run.
  destruct (getitem doc "geometryType") as [geo'|e] eqn:Hgeo; [|done].
  rewrite bind_run, get_run. fold (count_request s).
  destruct (transport (count_request s)) as [r2|e] eqn:Hr2; [|done].
  rewrite lift_bind_run. destruct (resp_json r2) as [cdoc|e] eqn:Hcdoc; [|done].
  rewrite lift_bind_run. destruct (getitem cdoc "count") as [cnt|e] eqn:Hcnt; [|done].
  rewrite lift_bind_run. destruct (int_of_json cnt) as [n'|e] eqn:Hn; [|done].
  intros [= <- <- <- <- <- <-]. split.
  - by rewrite <- app_assoc.
  - by exists r1, doc, r2, cdoc, mrc, aqc, cnt.
Qed.

Lemma get_metadata_ok_witness :
  metadata_requests
  = ([] ++ [metadata_request sample_session; count_request sample_session])%list.
Proof.
  exact (proj1 (get_metadata_ok mock_good sample_session [] metadata_requests
                  250 100 (JArr []) (JBool true) (JStr "esriGeometryPoint") eq_refl)).
Defined.

(** X7: when the service description is a JSON object that lacks one of the
    members "maxRecordCount", "advancedQueryCapabilities", "fields" or
    "geometryType", [_get_metadata] raises after the first request and never
    sends the count request; when the missing member is "maxRecordCount" the
    exception is KeyError('maxRecordCount'). *)
Theorem get_metadata_missing_member (transport : Request → result Response)
    (s : Session) (log : list Request) (r1 : Response)
    (kvs : list (string * json)) (k : string) :
  transport (metadata_request s) = Ok r1 →
  resp_json r1 = Ok (JObj kvs) →
  k ∈ ["maxRecordCount"; "advancedQueryCapabilities"; "fields"; "geometryType"] →
  assoc_get k kvs = None →
  ∃ e, _get_metadata transport s log = (Raise e, (log ++ [metadata_request s])%list)
       ∧ (k = "maxRecordCount" → e = KeyError "maxRecordCount").
Proof.
  intros Hr1 Hdoc Hk Hnone.
  unfold _get_metadata. rewrite bind_run, get_run. fold (metadata_request s).
  rewrite Hr1, lift_bind_run, Hdoc, lift_bind_run. cbn [getitem].
  destruct (assoc_get "maxRecordCount" kvs) as [mrc|] eqn:Hmrc.
  2:{ eexists. split; [done|done]. }
  assert (k ≠ "maxRecordCount") as Hk1 by congruence.
  rewrite lift_bind_run.
  destruct (int_of_json mrc) as [m|e]; [|by eexists].
  rewrite lift_bind_run.
  destruct (assoc_get "advancedQueryCapabilities" kvs) as [aqc|] eqn:Haqc;
    [|by eexists].
  assert (k ≠ "advancedQueryCapabilities") as Hk2 by congruence.
  rewrite lift_bind_run.
  destruct (getitem aqc "supportsPagination") as [pag|e]; [|by eexists].
  rewrite lift_bind_run.
  destruct (assoc_get "fields" kvs) as [sch|] eqn:Hsch; [|by eexists].
  assert (k ≠ "fields") as Hk3 by congruence.
  rewrite lift_bind_run.
  destruct (assoc_get "geometryType" kvs) as [geo|] eqn:Hgeo; [|by eexists].
  assert (k ≠ "geometryType") as Hk4 by congruence.
  exfalso. repeat (apply elem_of_cons in Hk as [?|Hk]; [done|]).
  by apply elem_of_nil in Hk.
Qed.

Lemma get_metadata_missing_member_witness :
  ∃ e, _get_metadata
         (λ _, Ok {| resp_json := Ok (JObj [("maxRecordCount", JNum 100);
                                            ("fields", JArr [])]) |})
         sample_session []
       = (Raise e, ([] ++ [metadata_request sample_session])%list)
       ∧ ("geometryType" = "maxRecordCount" → e = KeyError "maxRecordCount").
Proof.
  apply (get_metadata_missing_member
           (λ _, Ok {| resp_json := Ok (JObj [("maxRecordCount", JNum 100);
                                              ("fields", JArr [])]) |})
           sample_session []
           {| resp_json := Ok (JObj [("maxRecordCount", JNum 100); ("fields", JArr [])]) |}
           [("maxRecordCount", JNum 100); ("fields", JArr [])] "geometryType").
  - reflexivity.
  - reflexivity.
  - set_solver.
  - reflexivity.
Defined.

Lemma get_metadata_same_urls (transport : Request → result Response)
    (s s' : Session) (log : list Request) :
  url s = url s' → query_url s = query_url s' →
  _get_metadata transport s log = _get_metadata transport s' log.
Proof. intros Hu Hq. unfold _get_metadata. by rewrite Hu, Hq. Qed.

Lemma new_session_urls (urlparse : string → result ParseResult) (u : string)
    (kwargs kwargs' : gmap string pyval) (s s' : Session) :
  new_session urlparse u kwargs = Ok s →
  new_session urlparse u kwargs' = Ok s' →
  url s = url s' ∧ query_url s = query_url s'.
Proof.
  unfold new_session. destruct (_validate_url urlparse u) as [valid|]; [|done].
  by intros [= <-] [= <-].
Qed.

(** X8: the record count, the page size and the page plan do not depend on
    the query options or on the concurrency setting: two constructions from
    the same URL that succeed, with any keyword arguments (for instance
    different "where" clauses), have the same [n_records],
    [max_record_count] and [_request_urls], hence make the same number of
    page requests. *)
Theorem plan_ignores_query_options (transport : Request → result Response)
    (urlparse : string → result ParseResult)
    (frame_error : json → pyval → option exn) (u : string)
    (concurrent concurrent' : bool) (kwargs kwargs' : gmap string pyval)
    (sched sched' : list nat) (log l l' : list Request) (a a' : AIMS) :
  __init__ transport urlparse frame_error u concurrent kwargs sched log = (Ok a, l) →
  __init__ transport urlparse frame_error u concurrent' kwargs' sched' log = (Ok a', l') →
  n_records a = n_records a'
  ∧ max_record_count a = max_record_count a'
  ∧ _request_urls a = _request_urls a'
  ∧ length (_raw_responses a) = length (_raw_responses a').
Proof.
  intros (s & n & m & sch & pag & geo & log1 & plan & raw & d & feats & frame
          & Hs & Hmd & Hplan & Hf & _ & _ & ->)%init_ok_inv
         (s' & n' & m' & sch' & pag' & geo' & log1' & plan' & raw' & d' & feats' & frame'
          & Hs' & Hmd' & Hplan' & Hf' & _ & _ & ->)%init_ok_inv.
  cbn.
  destruct (new_session_urls urlparse u kwargs kwargs' s s' Hs Hs') as [Hu Hq].
  rewrite (get_metadata_same_urls transport s s' log Hu Hq) in Hmd.
  rewrite Hmd in Hmd'. injection Hmd' as <- <- <- <- <- <-.
  rewrite Hplan in Hplan'. injection Hplan' as <-.
  repeat split; try done.
  pose proof (fetch_all_fst transport s concurrent plan sched log1) as H1.
  pose proof (fetch_all_fst transport s' concurrent' plan sched' log1) as H2.
  rewrite Hf in H1. rewrite Hf' in H2. cbn [fst] in H1, H2.
  destruct (all_ok (map (λ p, transport (page_request s p)) plan)) as [raw0|] eqn:E1;
    [|done].
  destruct (all_ok (map (λ p, transport (page_request s' p)) plan)) as [raw0'|] eqn:E2;
    [|done].
  apply all_ok_inv, Forall2_length in E1. apply all_ok_inv, Forall2_length in E2.
  rewrite length_map in E1, E2.
  cbn in H1, H2. destruct (combine raw0); [|done]. destruct (combine raw0'); [|done].
  injection H1 as -> _. injection H2 as -> _. congruence.
Qed.

Lemma plan_ignores_query_options_witness :
  ∃ l l',
    __init__ mock_good urlparse_sample frame_error_sample sample_url true
      {[ "where" := PStr "POP > 1000" ]} [1; 0; 2]%nat []
    = (Ok (good_instance filtered_session), l)
    ∧ __init__ mock_good urlparse_sample frame_error_sample sample_url false ∅ [] []
      = (Ok (good_instance sample_session), l')
    ∧ n_records (good_instance filtered_session)
      = n_records (good_instance sample_session)
    ∧ max_record_count (good_instance filtered_session)
      = max_record_count (good_instance sample_session)
    ∧ _request_urls (good_instance filtered_session)
      = _request_urls (good_instance sample_session)
    ∧ length (_raw_responses (good_instance filtered_session))
      = length (_raw_responses (good_instance sample_session)).
Proof.
  eexists _, _.
  split; [reflexivity|]. split; [reflexivity|].
  eapply (plan_ignores_query_options mock_good urlparse_sample frame_error_sample sample_url true false
            {[ "where" := PStr "POP > 1000" ]} ∅ [1; 0; 2]%nat [] []);
    reflexivity.
Defined.

(** X9: after a successful construction the stored responses are the
    transport's answers to the page requests of the plan, in plan order, one
    per plan entry, whether the requests were made concurrently or not. *)
Theorem raw_responses_in_plan_order (transport : Request → result Response)
    (urlparse : string → result ParseResult)
    (frame_error : json → pyval → option exn) (u : string) (concurrent : bool)
    (kwargs : gmap string pyval) (sched : list nat) (log l : list Request) (a : AIMS) :
  __init__ transport urlparse frame_error u concurrent kwargs sched log = (Ok a, l) →
  Forall2 (λ p r, transport (page_request (self a) p) = Ok r)
          (_request_urls a) (_raw_responses a).
Proof.
  intros (s & n & m & sch & pag & geo & log1 & plan & raw & d & feats & frame
          & Hs & Hmd & Hplan & Hf & _ & _ & ->)%init_ok_inv.
  cbn.
  pose proof (fetch_all_fst transport s concurrent plan sched log1) as H.
  rewrite Hf in H. cbn [fst] in H.
  destruct (all_ok (map (λ p, transport (page_request s p)) plan)) as [raw0|] eqn:E;
    [|done].
  cbn in H. destruct (combine raw0); [|done]. injection H as -> _.
  apply all_ok_inv in E. by apply Forall2_fmap_l in E.
Qed.

Lemma raw_responses_in_plan_order_witness :
  ∃ l,
    __init__ mock_good urlparse_sample frame_error_sample sample_url true ∅ [2; 0; 1]%nat []
    = (Ok (good_instance sample_session), l)
    ∧ Forall2 (λ p r, mock_good (page_request (self (good_instance sample_session)) p)
                      = Ok r)
              (_request_urls (good_instance sample_session))
              (_raw_responses (good_instance sample_session)).
Proof.
  eexists. split; [reflexivity|].
  eapply (raw_responses_in_plan_order mock_good urlparse_sample frame_error_sample sample_url true ∅
            [2; 0; 1]%nat []).
  reflexivity.
Defined.

(** ** URL validation: what is kept of the URL *)


Lemma split_join_slash (l : list string) :
  l ≠ [] → Forall no_slash l → split_slash (join_slash l) = l.
Proof.
  intros Hne Hl. induction Hl as [|x l Hx Hl IH]; [done|].
  destruct l as [|y l].
  - by apply split_slash_single.
  - change (join_slash (x :: y :: l)) with (x +:+ String slash (join_slash (y :: l))).
    rewrite split_slash_app, (split_slash_single x Hx), IH; done.
Qed.




(** X11: validation is idempotent on the path: validating the accepted URL's
    own path again (same scheme and netloc) accepts it and returns the same
    URL. *)
Theorem validate_parsed_idempotent (parsed : ParseResult) (valid : string) :
  validate_parsed parsed = Ok valid →
  ∃ kept : string,
    valid = scheme parsed +:+ "://" +:+ netloc parsed +:+ kept
    ∧ validate_parsed {| scheme := scheme parsed; netloc := netloc parsed;
                         path := kept; params := ""; query := "";
                         fragment := "" |} = Ok valid.
Proof.
  intros (k & seg & z & Hk & Hseg & Hz & ->)%validate_parsed_inv.
  set (segs := split_slash (path parsed)) in *.
  pose proof (lookup_lt_Some _ _ _ Hseg) as Hlen.
  exists (join_slash (take (S k) segs)). split; [done|].
  assert (Hsplit : split_slash (join_slash (take (S k) segs)) = take (S k) segs).
  { apply split_join_slash.
    - destruct segs; [cbn in Hlen; lia|done].
    - apply Forall_take, Forall_forall. intros x Hx.
      by apply (split_slash_no_slash (path parsed)). }
  rewrite (validate_parsed_found _ k seg z); cbn [path scheme netloc].
  - unfold base_url. cbn [path scheme netloc]. rewrite Hsplit.
    by rewrite take_take, Nat.min_id.
  - done.
  - rewrite Hsplit. rewrite lookup_take_lt by lia. done.
  - done.
  - intros j seg' Hj. rewrite Hsplit. rewrite lookup_take_ge by lia. done.
Qed.

Lemma validate_parsed_idempotent_witness :
  ∃ kept : string,
    "https://h.org/arcgis/rest/services/F/MapServer/3"
    = "https" +:+ "://" +:+ "h.org" +:+ kept
    ∧ validate_parsed {| scheme := "https"; netloc := "h.org";
                         path := kept; params := ""; query := "";
                         fragment := "" |}
      = Ok "https://h.org/arcgis/rest/services/F/MapServer/3".
Proof.
  apply (validate_parsed_idempotent
           {| scheme := "https"; netloc := "h.org";
              path := "/arcgis/rest/services/F/MapServer/3/query";
              params := ""; query := "f=json"; fragment := "" |}).
  reflexivity.
Defined.

(** ** The requests made for the pages *)

Section TaskLog.

Context {X B : Type}.
Variable f : X → M B.
Variable g : X → result B.
Variable h : X → Request.
Hypothesis f_run : ∀ x log, f x log = (g x, (log ++ [h x])%list).

Lemma py_map_snd_app (pre rest : list X) (log : list Request) :
  Forall (λ x, is_ok (g x) = true) pre →
  (py_map f (pre ++ rest) log).2 = (py_map f rest (log ++ map h pre)%list).2.
Proof.
  intros Hpre. revert log.
  induction Hpre as [|x pre Hx _ IH]; intros log.
  - cbn. by rewrite app_nil_r.
  - cbn [app py_map map]. rewrite bind_run, f_run.
    destruct (g x) as [b|e]; [|done].
    rewrite bind_run. specialize (IH (log ++ [h x])%list).
    rewrite <- app_assoc in IH. cbn [app] in IH. rewrite <- IH.
    by destruct (py_map f (pre ++ rest) (log ++ [h x])%list) as [[bs|e] l].
Qed.

Lemma pending_init (xs : list X) :
  pending xs (replicate (length xs) (@None (result B))) = xs.
Proof. induction xs as [|x xs IH]; [done|]. cbn. by rewrite IH. Qed.

Lemma pending_insert (xs : list X) (futures : list (option (result B)))
    (i : nat) (x : X) (r : result B) :
  xs !! i = Some x → futures !! i = Some None →
  pending xs futures ≡ₚ x :: pending xs (<[i := Some r]> futures).
Proof.
  revert futures i. induction xs as [|y xs IH]; intros futures i Hx Hf; [done|].
  destruct futures as [|fut futures]; [done|].
  destruct i as [|i]; cbn in Hx, Hf.
  - by simplify_eq.
  - cbn. destruct fut.
    + by apply IH.
    + rewrite (IH futures i Hx Hf). apply Permutation_swap.
Qed.

Lemma run_pool_log (xs : list X) (sched : list nat) :
  ∀ futures log,
    ∃ ran : list X,
      (run_pool f xs sched futures log).2 = (log ++ map h ran)%list
      ∧ pending xs futures ≡ₚ (ran ++ pending xs (run_pool f xs sched futures log).1)%list.
Proof.
  induction sched as [|i sched IH]; intros futures log.
  - exists []. cbn. by rewrite app_nil_r.
  - cbn [run_pool].
    destruct (xs !! i) as [x|] eqn:Hx; [|by apply IH].
    destruct (futures !! i) as [[r|]|] eqn:Hf; [by apply IH| |by apply IH].
    rewrite f_run.
    destruct (IH (<[i := Some (g x)]> futures) (log ++ [h x])%list)
      as (ran & Hlog & Hperm).
    exists (x :: ran). split.
    + rewrite Hlog. by rewrite <- app_assoc.
    + rewrite (pending_insert xs futures i x (g x) Hx Hf). cbn [app].
      by rewrite Hperm.
Qed.

Lemma gather_log (xs : list X) :
  Forall (λ x, is_ok (g x) = true) xs →
  ∀ futures log,
    agree g xs futures →
    (gather f xs futures log).2 = (log ++ map h (pending xs futures))%list.
Proof.
  induction 1 as [|x xs Hx _ IH]; intros futures log Hag.
  - inversion Hag. cbn. by rewrite app_nil_r.
  - inversion Hag as [|? fut ? futures' Hfut Hrest]; subst.
    cbn [gather pending]. rewrite bind_run.
    destruct Hfut as [->| ->].
    + rewrite f_run. destruct (g x) as [b|e]; [|done].
      rewrite bind_run. specialize (IH futures' (log ++ [h x])%list Hrest).
      destruct (gather f xs futures' (log ++ [h x])%list) as [[bs|e] l];
        cbn in IH |- *; rewrite IH; by rewrite <- app_assoc.
    + unfold lift. destruct (g x) as [b|e]; [|done].
      rewrite bind_run. specialize (IH futures' log Hrest).
      by destruct (gather f xs futures' log) as [[bs|e] l].
Qed.

Lemma executor_map_log (xs : list X) (sched : list nat) (log : list Request) :
  Forall (λ x, is_ok (g x) = true) xs →
  ∃ made : list Request,
    (executor_map f xs sched log).2 = (log ++ made)%list
    ∧ made ≡ₚ map h xs.
Proof.
  intros Hok. unfold executor_map.
  destruct (run_pool_log xs sched (replicate (length xs) None) log)
    as (ran & Hlog & Hperm).
  pose proof (run_pool_agree f g ltac:(by intros; rewrite f_run) xs sched _ log
                (agree_init g xs)) as Hag.
  destruct (run_pool f xs sched (replicate (length xs) None) log) as [futures l].
  cbn [fst snd] in *. subst l.
  rewrite (gather_log xs Hok futures _ Hag).
  exists (map h ran ++ map h (pending xs futures))%list. split.
  - by rewrite app_assoc.
  - rewrite <- map_app, <- Hperm. by rewrite pending_init.
Qed.

End TaskLog.

(** X12: without concurrency the page requests are made one after the other
    in plan order, and stop at the first request that raises: when the pages
    [pre] are answered and the next request, if any, raises, the log of
    requests grows by the requests of [pre] and of that next page, in this
    order, and by nothing for the pages after it. *)
Theorem sequential_requests (transport : Request → result Response) (s : Session)
    (pre rest : list (Z * Z)) (sched : list nat) (log : list Request) :
  Forall (λ q, is_ok (transport (page_request s q)) = true) pre →
  (rest = [] ∨ ∃ p post e, rest = p :: post ∧ transport (page_request s p) = Raise e) →
  (fetch_pages transport s false (pre ++ rest) sched log).2
  = (log ++ map (page_request s) (pre ++ take 1 rest))%list.
Proof.
  intros Hpre Hrest. unfold fetch_pages.
  rewrite (py_map_snd_app (_make_single_request transport s)
             (λ p, transport (page_request s p)) (page_request s)
             (make_single_request_run transport s) pre rest log Hpre).
  rewrite map_app, app_assoc.
  destruct Hrest as [->|(p & post & e & -> & He)].
  - cbn. by rewrite app_nil_r.
  - cbn [py_map take map]. rewrite bind_run, make_single_request_run, He. done.
Qed.

Lemma sequential_requests_witness :
  (fetch_pages (mock_down_at 100) sample_session false
     ([(0, 100)] ++ [(100, 100); (200, 100)]) [] []).2
  = ([] ++ map (page_request sample_session)
             ([(0, 100)] ++ take 1 [(100, 100); (200, 100)]))%list.
Proof.
  apply (sequential_requests (mock_down_at 100) sample_session [(0, 100)]
           [(100, 100); (200, 100)] [] []).
  - repeat constructor.
  - right. by exists (100, 100), [(200, 100)], (LibraryError "ConnectionError").
Defined.

(** X13: with concurrency, when every page request of the plan is answered,
    the requests made are exactly the page requests of the plan, each one
    once, in an order that depends on the schedule. *)
Theorem concurrent_requests (transport : Request → result Response) (s : Session)
    (plan : list (Z * Z)) (sched : list nat) (log : list Request) :
  Forall (λ q, is_ok (transport (page_request s q)) = true) plan →
  ∃ made : list Request,
    (fetch_pages transport s true plan sched log).2 = (log ++ made)%list
    ∧ made ≡ₚ map (page_request s) plan.
Proof.
  intros Hok. unfold fetch_pages.
  by apply (executor_map_log (_make_single_request transport s)
              (λ p, transport (page_request s p)) (page_request s)
              (make_single_request_run transport s)).
Qed.

Lemma concurrent_requests_witness :
  ∃ made : list Request,
    (fetch_pages mock_good sample_session true [(0, 100); (100, 100); (200, 100)]
       [2; 0]%nat []).2 = ([] ++ made)%list
    ∧ made ≡ₚ map (page_request sample_session) [(0, 100); (100, 100); (200, 100)].
Proof.
  apply (concurrent_requests mock_good sample_session
           [(0, 100); (100, 100); (200, 100)] [2; 0]%nat []).
  repeat constructor.
Defined.

(** ** Merging: the first page's document *)

Lemma assoc_set_same (k : string) (v : json) (kvs : list (string * json)) :
  assoc_get k kvs = Some v → assoc_set k v kvs = kvs.
Proof.
  induction kvs as [|[k' v'] kvs IH]; [done|]. cbn.
  destruct (String.eqb_spec k k') as [->|Hne].
  - by intros [= ->].
  - intros H. by rewrite IH.
Qed.

Lemma assoc_get_set_ne (k k' : string) (v : json) (kvs : list (string * json)) :
  k ≠ k' → assoc_get k (assoc_set k' v kvs) = assoc_get k kvs.
Proof.
  intros Hne. induction kvs as [|[k0 v0] kvs IH]; cbn.
  - by destruct (String.eqb_spec k k').
  - destruct (String.eqb_spec k' k0) as [->|Hne0]; cbn.
    + by destruct (String.eqb_spec k k0).
    + destruct (String.eqb_spec k k0); [done|apply IH].
Qed.

(** X14: a plan of one page: when the single answer is JSON with a "features"
    member (of any type), the merged collection is that answer's document,
    unchanged. *)
Theorem combine_single_page (r : Response) (page fs : json) :
  resp_json r = Ok page →
  getitem page "features" = Ok fs →
  combine [r] = Ok page.
Proof.
  intros Hpage Hfs. rewrite combine_cons, Hpage, Hfs. cbn.
  destruct page as [| | | | |kvs]; try done.
  destruct fs; try done.
  cbn in Hfs. destruct (assoc_get "features" kvs) as [v|] eqn:Hget; [|done].
  injection Hfs as ->. by rewrite (assoc_set_same _ _ _ Hget).
Qed.

Lemma combine_single_page_witness :
  combine [ok_page (two_features 0)] = resp_json (ok_page (two_features 0)).
Proof.
  exact (combine_single_page (ok_page (two_features 0)) _ (JArr (two_features 0))
           eq_refl eq_refl).
Defined.

(** X15: every member of the merged collection other than "features" is the
    first page's: the other members of the later pages' documents are
    dropped. *)
Theorem combine_keeps_first_page_members (r0 : Response) (rest : list Response)
    (page0 d : json) (k : string) :
  combine (r0 :: rest) = Ok d →
  resp_json r0 = Ok page0 →
  k ≠ "features" →
  getitem d k = getitem page0 k.
Proof.
  rewrite combine_cons. intros Hd Hpage Hk. rewrite Hpage in Hd.
  destruct (getitem page0 "features") as [fs|]; [|done].
  destruct (extend_features _ _ fs) as [fs'|]; [|done].
  injection Hd as <-.
  destruct page0 as [| | | | |kvs]; try done.
  destruct fs; try done.
  cbn. by rewrite assoc_get_set_ne.
Qed.

Lemma combine_keeps_first_page_members_witness :
  getitem (JObj [("type", JStr "FeatureCollection");
                 ("features", JArr (two_features 0 ++ two_features 100))]) "type"
  = getitem (JObj [("type", JStr "FeatureCollection");
                   ("features", JArr (two_features 0))]) "type".
Proof.
  apply (combine_keeps_first_page_members (ok_page (two_features 0))
           [ok_page (two_features 100)]).
  - reflexivity.
  - reflexivity.
  - discriminate.
Defined.

(** ** The command line *)

Lemma length_append (a b : string) :
  String.length (a +:+ b) = (String.length a + String.length b)%nat.
Proof. induction a as [|c a IH]; [done|]. rewrite append_cons. cbn. by rewrite IH. Qed.

Lemma lower_append (a b : string) : lower (a +:+ b) = lower a +:+ lower b.
Proof. induction a as [|c a IH]; [done|]. rewrite append_cons. cbn. by rewrite IH. Qed.

Lemma drop_chars_append (a b : string) : drop_chars (String.length a) (a +:+ b) = b.
Proof. induction a as [|c a IH]; [by destruct b|]. by rewrite append_cons. Qed.

Lemma endswith_append (a b : string) : endswith (a +:+ b) b = true.
Proof.
  unfold endswith. rewrite length_append.
  replace (String.length a + String.length b - String.length b)%nat
    with (String.length a) by lia.
  rewrite drop_chars_append, String.eqb_refl, andb_true_r.
  apply Nat.leb_le. lia.
Qed.

(* The file name chosen by [cli] for an extension written in lower case. *)
Lemma chosen_name_has_extension (name ext : string) :
  lower ext = ext →
  endswith (lower (if endswith (lower name) ext then name else name +:+ ext)) ext = true.
Proof.
  intros Hext. destruct (endswith (lower name) ext) eqn:E; [done|].
  rewrite lower_append, Hext. apply endswith_append.
Qed.

Lemma io_bind_run {A B} (m : IO A) (k : A → IO B) (tr : list event) :
  (m ≫= k) tr =
    match m tr with
    | (Ok a, tr') => k a tr'
    | (Raise e, tr') => (Raise e, tr')
    end.
Proof. reflexivity. Qed.

Lemma appends_only_ret {A} (P : event → Prop) (a : A) : appends_only P (mret a).
Proof. intros tr. exists []. split; [by rewrite app_nil_r|constructor]. Qed.

Lemma appends_only_bind {A B} (P : event → Prop) (m : IO A) (k : A → IO B) :
  appends_only P m → (∀ a, appends_only P (k a)) → appends_only P (m ≫= k).
Proof.
  intros Hm Hk tr. rewrite io_bind_run.
  destruct (Hm tr) as (new & Hnew & HP).
  destruct (m tr) as [[a|e] tr1]; cbn [snd] in Hnew; subst tr1.
  - destruct (Hk a (tr ++ new)%list) as (new' & Hnew' & HP').
    exists (new ++ new')%list. rewrite Hnew', app_assoc. split; [done|].
    by apply Forall_app.
  - by exists new.
Qed.

Lemma appends_only_one {A} (P : event → Prop) (r : result A) (ev : event) :
  P ev → appends_only P (λ tr, (r, (tr ++ [ev])%list)).
Proof. intros Hev tr. exists [ev]. split; [done|]. by constructor. Qed.

(** X16: every file that [cli] asks to be written has the extension of its
    format, in any letter case: ".geojson" for the GeoJSON export (driver
    "GeoJSON"), ".shp" for the shapefile export (default driver) and ".json"
    for the schema, whose text is [json.dumps] of the instance's schema; the
    frames written are the instance's GeoDataFrame.  This holds whether or
    not the writes succeed. *)
Theorem cli_export_file_names
    (to_file : GeoDataFrame → string → option string → result unit)
    (write_text : string → string → result unit) (dumps : json → string)
    (instance : AIMS) (geojson shapefile schema_opt : option string) :
  Forall (well_named instance (dumps (schema instance)))
         (cli_export to_file write_text dumps instance geojson shapefile schema_opt []).2.
Proof.
  assert (H : appends_only (well_named instance (dumps (schema instance)))
                (cli_export to_file write_text dumps instance geojson shapefile
                   schema_opt)).
  { unfold cli_export. cbv zeta.
    apply appends_only_bind.
    { destruct geojson as [name|]; [|apply appends_only_ret].
      destruct (String.eqb name ""); [apply appends_only_ret|].
      apply appends_only_bind; [|intros _; by apply appends_only_one].
      apply appends_only_one. cbn. split; [done|]. split; [done|].
      by apply chosen_name_has_extension. }
    intros _. apply appends_only_bind.
    { destruct shapefile as [name|]; [|apply appends_only_ret].
      destruct (String.eqb name ""); [apply appends_only_ret|].
      apply appends_only_bind; [|intros _; by apply appends_only_one].
      apply appends_only_one. cbn. split; [done|].
      by apply chosen_name_has_extension. }
    intros _. apply appends_only_bind.
    { destruct schema_opt as [name|]; [|apply appends_only_ret].
      destruct (String.eqb name ""); [apply appends_only_ret|].
      apply appends_only_bind; [|intros _; by apply appends_only_one].
      apply appends_only_one. cbn. split; [done|].
      by apply chosen_name_has_extension. }
    intros _. apply appends_only_bind; [by apply appends_only_one|].
    intros _. by apply appends_only_one. }
  destruct (H []) as (new & -> & Hnew). done.
Qed.

(** X17: the exports run in the order GeoJSON, shapefile, schema, each
    followed by its message, and the command ends with "Processing
    complete." and then "Retreived N records.", N being the instance's
    record count.  For names given without extension the GeoJSON and
    shapefile messages name the file written, while the schema message names
    the path as it was given, not the path with ".json" that was written. *)
Theorem cli_export_trace
    (to_file : GeoDataFrame → string → option string → result unit)
    (write_text : string → string → result unit) (dumps : json → string)
    (instance : AIMS) (g sh sc : string) :
  g ≠ "" → sh ≠ "" → sc ≠ "" →
  endswith (lower g) ".geojson" = false →
  endswith (lower sh) ".shp" = false →
  endswith (lower sc) ".json" = false →
  to_file (gdf instance) (g +:+ ".geojson") (Some "GeoJSON") = Ok tt →
  to_file (gdf instance) (sh +:+ ".shp") None = Ok tt →
  write_text (sc +:+ ".json") (dumps (schema instance)) = Ok tt →
  cli_export to_file write_text dumps instance (Some g) (Some sh) (Some sc) []
  = (Ok tt,
     [ ToFile (gdf instance) (g +:+ ".geojson") (Some "GeoJSON");
       Echo ("GeoJSON saved at " +:+ g +:+ ".geojson");
       ToFile (gdf instance) (sh +:+ ".shp") None;
       Echo ("Shapefile saved at " +:+ sh +:+ ".shp");
       WriteText (sc +:+ ".json") (dumps (schema instance));
       Echo ("Schema saved at " +:+ sc);
       Echo "Processing complete.";
       Echo ("Retreived " +:+ pretty (n_records instance) +:+ " records.") ]).
Proof.
  intros Hg Hsh Hsc Eg Esh Esc Wg Wsh Wsc.
  unfold cli_export. cbv zeta.
  apply String.eqb_neq in Hg, Hsh, Hsc.
  rewrite Hg, Hsh, Hsc, Eg, Esh, Esc.
  rewrite !io_bind_run.
  unfold to_geojson, to_shapefile, call_to_file, write_file, echo, schema_of.
  cbn [app]. rewrite Wg. cbn [app]. rewrite Wsh. cbn [app]. by rewrite Wsc.
Qed.

Lemma cli_export_trace_witness :
  cli_export to_file_ok write_text_ok dumps_sample sample_instance
    (Some "out/layer") (Some "out/layer") (Some "out/layer") []
  = (Ok tt,
     [ ToFile (gdf sample_instance) ("out/layer" +:+ ".geojson") (Some "GeoJSON");
       Echo ("GeoJSON saved at " +:+ "out/layer" +:+ ".geojson");
       ToFile (gdf sample_instance) ("out/layer" +:+ ".shp") None;
       Echo ("Shapefile saved at " +:+ "out/layer" +:+ ".shp");
       WriteText ("out/layer" +:+ ".json") (dumps_sample (schema sample_instance));
       Echo ("Schema saved at " +:+ "out/layer");
       Echo "Processing complete.";
       Echo ("Retreived " +:+ pretty (n_records sample_instance) +:+ " records.") ]).
Proof.
  apply (cli_export_trace to_file_ok write_text_ok dumps_sample sample_instance
           "out/layer" "out/layer" "out/layer");
    first [discriminate | reflexivity].
Defined.

Example retrieved_message :
  "Retreived " +:+ pretty (n_records sample_instance) +:+ " records."
  = "Retreived 2 records.".
Proof. reflexivity. Qed.

(** X18: a failing GeoJSON export stops the command: the exception is raised,
    the shapefile and the schema are not written even when asked for, and
    nothing is echoed. *)
Theorem cli_export_stops_at_failure
    (to_file : GeoDataFrame → string → option string → result unit)
    (write_text : string → string → result unit) (dumps : json → string)
    (instance : AIMS) (g : string) (shapefile schema_opt : option string) (e : exn) :
  g ≠ "" →
  to_file (gdf instance)
    (if endswith (lower g) ".geojson" then g else g +:+ ".geojson")
    (Some "GeoJSON") = Raise e →
  cli_export to_file write_text dumps instance (Some g) shapefile schema_opt []
  = (Raise e,
     [ ToFile (gdf instance)
         (if endswith (lower g) ".geojson" then g else g +:+ ".geojson")
         (Some "GeoJSON") ]).
Proof.
  intros Hg Hfail. apply String.eqb_neq in Hg.
  unfold cli_export. cbv zeta. rewrite Hg, !io_bind_run.
  unfold to_geojson, call_to_file. cbn [app]. by rewrite Hfail.
Qed.

Lemma cli_export_stops_at_failure_witness :
  cli_export to_file_fails write_text_ok dumps_sample sample_instance
    (Some "layer.GeoJSON") (Some "layer") (Some "layer") []
  = (Raise (LibraryError "DriverError"),
     [ ToFile (gdf sample_instance) "layer.GeoJSON" (Some "GeoJSON") ]).
Proof.
  apply (cli_export_stops_at_failure to_file_fails write_text_ok dumps_sample
           sample_instance "layer.GeoJSON" (Some "layer") (Some "layer")
           (LibraryError "DriverError")).
  - discriminate.
  - reflexivity.
Defined.

(** X19: the command line sets only three query options.  Every page request
    of a session created with the keyword arguments of [cli] carries the
    given where clause, output fields and output spatial reference, and the
    empty string for text, geometry, geometryType, inSR and spatialRel. *)
Theorem cli_query_options (urlparse : string → result ParseResult) (u : string)
    (where_ out_fields out_sr : string) (s : Session) (p : Z * Z) :
  new_session urlparse u (cli_kwargs where_ out_fields out_sr) = Ok s →
  req_params (page_request s p) !! "where" = Some (PStr where_)
  ∧ req_params (page_request s p) !! "outFields" = Some (PStr out_fields)
  ∧ req_params (page_request s p) !! "outSR" = Some (PStr out_sr)
  ∧ ∀ k, k ∈ ["text"; "geometry"; "geometryType"; "inSR"; "spatialRel"] →
         req_params (page_request s p) !! k = Some (PStr "").
Proof.
  unfold new_session. destruct (_validate_url urlparse u) as [valid|]; [|done].
  intros [= <-]. repeat split.
  intros k Hk.
  repeat (apply elem_of_cons in Hk as [->|Hk]; [reflexivity|]).
  by apply elem_of_nil in Hk.
Qed.

Lemma cli_query_options_witness :
  ∃ s, new_session urlparse_sample sample_url (cli_kwargs "POP > 1000" "NAME" "3857")
       = Ok s
       ∧ req_params (page_request s (0, 100)) !! "where" = Some (PStr "POP > 1000")
       ∧ req_params (page_request s (0, 100)) !! "outFields" = Some (PStr "NAME")
       ∧ req_params (page_request s (0, 100)) !! "outSR" = Some (PStr "3857")
       ∧ ∀ k, k ∈ ["text"; "geometry"; "geometryType"; "inSR"; "spatialRel"] →
              req_params (page_request s (0, 100)) !! k = Some (PStr "").
Proof.
  eexists. split; [reflexivity|].
  apply (cli_query_options urlparse_sample sample_url "POP > 1000" "NAME" "3857").
  reflexivity.
Defined.

(** X20: every frame that the command line writes carries crs=4236 when the
    output spatial reference option is the empty string (its default), and
    the given option otherwise. *)
Theorem cli_frames_crs
    (to_file : GeoDataFrame → string → option string → result unit)
    (write_text : string → string → result unit) (dumps : json → string)
    (transport : Request → result Response)
    (urlparse : string → result ParseResult)
    (frame_error : json → pyval → option exn) (u : string) (concurrent : bool)
    (where_ out_fields out_sr : string) (geojson shapefile schema_opt : option string)
    (sched : list nat) (log : list Request)
    (frame : GeoDataFrame) (filename : string) (driver : option string) :
  ToFile frame filename driver
    ∈ (cli to_file write_text dumps transport urlparse frame_error u concurrent
         where_ out_fields out_sr geojson shapefile schema_opt sched log).2 →
  gdf_crs frame = if decide (out_sr = "") then PInt 4236 else PStr out_sr.
Proof.
  unfold cli.
  destruct (__init__ transport urlparse frame_error u concurrent
              (cli_kwargs where_ out_fields out_sr) sched log)
    as [[instance|e] l] eqn:Hinit; [|by intros ?%elem_of_nil].
  pose proof (cli_export_file_names to_file write_text dumps instance geojson
                shapefile schema_opt) as Hnames.
  destruct (cli_export to_file write_text dumps instance geojson shapefile
              schema_opt []) as [r tr].
  cbn [snd] in *. intros Hin.
  rewrite Forall_forall in Hnames. specialize (Hnames _ Hin).
  assert (frame = gdf instance) as ->.
  { cbn in Hnames. destruct driver; tauto. }
  apply init_ok_inv in Hinit
    as (s & n & m & sch & pag & geo & log1 & plan & raw & d & feats & fr
        & Hs & _ & _ & _ & _ & Hframe & ->).
  cbn [gdf].
  assert (Hsr : _query_outSR s = PStr out_sr).
  { unfold new_session in Hs.
    destruct (_validate_url urlparse u) as [valid|]; [|done].
    by injection Hs as <-. }
  rewrite Hsr in Hframe. apply to_gdf_ok in Hframe as [_ ->].
  destruct (decide (PStr out_sr ≠ PStr "")) as [Hne|Heq],
           (decide (out_sr = "")) as [->|Hne']; try done.
  exfalso. apply Heq. congruence.
Qed.

Lemma cli_frames_crs_witness :
  ToFile (gdf (good_instance sample_session)) "layer.geojson" (Some "GeoJSON")
    ∈ (cli to_file_ok write_text_ok dumps_sample mock_good urlparse_sample
         frame_error_sample          sample_url false "1=1" "*" "" (Some "layer") None None [] []).2
  ∧ gdf_crs (gdf (good_instance sample_session)) = PInt 4236.
Proof.
  assert (Hin : ToFile (gdf (good_instance sample_session)) "layer.geojson"
                  (Some "GeoJSON")
                ∈ (cli to_file_ok write_text_ok dumps_sample mock_good urlparse_sample
         frame_error_sample                      sample_url false "1=1" "*" "" (Some "layer") None None [] []).2).
  { vm_compute. apply list_elem_of_here. }
  split; [exact Hin|].
  exact (cli_frames_crs to_file_ok write_text_ok dumps_sample mock_good
           urlparse_sample frame_error_sample sample_url false "1=1" "*" "" (Some "layer") None None
           [] [] _ "layer.geojson" (Some "GeoJSON") Hin).
Defined.
